(** * TeleSocial proxy: a shallow embedding of [main.py]

    The repository is one FastAPI module with a single route,
    [GET /download/?url=...].  The handler forwards the target URL to a
    fixed upstream service and relays the answer as JSON or as a streamed
    download.

    Layout of this development:
    - [PyStr]: the Python string operations the module uses, on Latin-1
      strings (one [ascii] per code point below 256): the development is
      about requests and upstream answers whose text is Latin-1;
    - [Py]: exceptions with their class hierarchy, results, the writer
      monad of observable effects, and the [try] combinators;
    - [Proxy]: the module itself, function by function, over an abstract
      [Platform] (network and imported libraries);
    - [Sample]: one concrete platform on which the statements are run;
    - [Obs]: the vocabulary of the statements;
    - the properties, branch by branch. *)

From Stdlib Require Import String Ascii List ZArith NArith Lia Bool Arith.
From Stdlib Require Import Strings.Byte DecimalString.
Import ListNotations.

Local Open Scope string_scope.
Local Open Scope list_scope.

(* ================================================================= *)
(** ** Python strings *)

Module PyStr.

(** Code point of a character. *)
Definition ord (c : ascii) : N := N_of_ascii c.
Definition chr (n : N) : ascii := ascii_of_N n.

Definition between (lo hi n : N) : bool := ((lo <=? n) && (n <=? hi))%N.

Definition is_ascii_upper (c : ascii) : bool := between 65 90 (ord c).
Definition is_ascii_lower (c : ascii) : bool := between 97 122 (ord c).
Definition is_ascii_digit (c : ascii) : bool := between 48 57 (ord c).

(** The character class of the specification's [[A-Za-z0-9._-]]. *)
Definition is_ascii_alnum (c : ascii) : bool :=
  is_ascii_upper c || is_ascii_lower c || is_ascii_digit c.

(** [str.isalnum] on one character: Unicode letters and numeric
    characters.  Below 256 these are the ASCII ones, the ordinal
    indicators, micro, the superscript digits, the vulgar fractions and
    the accented letters (all of 0xC0..0xFF but the two operators). *)
Definition isalnum (c : ascii) : bool :=
  let n := ord c in
  is_ascii_alnum c
  || N.eqb n 170 || N.eqb n 178 || N.eqb n 179 || N.eqb n 181
  || N.eqb n 185 || N.eqb n 186 || between 188 190 n
  || between 192 214 n || between 216 246 n || between 248 255 n.

(** [str.isspace] on one character. *)
Definition isspace (c : ascii) : bool :=
  let n := ord c in
  between 9 13 n || between 28 32 n || N.eqb n 133 || N.eqb n 160.

(** [str.lower] on one character: ASCII capitals and the Latin-1
    capitals 0xC0..0xDE (but the multiplication sign) move up by 32. *)
Definition lower_char (c : ascii) : ascii :=
  let n := ord c in
  if is_ascii_upper c || between 192 214 n || between 216 222 n
  then chr (n + 32) else c.

Fixpoint lower (s : string) : string :=
  match s with
  | EmptyString => EmptyString
  | String c t => String (lower_char c) (lower t)
  end.

(** [needle in hay]. *)
Fixpoint contains (needle hay : string) : bool :=
  prefix needle hay ||
  match hay with
  | EmptyString => false
  | String _ t => contains needle t
  end.

(** [c in s] for one character. *)
Fixpoint mem_char (c : ascii) (s : string) : bool :=
  match s with
  | EmptyString => false
  | String a t => Ascii.eqb a c || mem_char c t
  end.

(** [s[n:]]. *)
Fixpoint drop (n : nat) (s : string) : string :=
  match n, s with
  | O, _ => s
  | S _, EmptyString => EmptyString
  | S k, String _ t => drop k t
  end.

(** [s.endswith(suffix)]. *)
Definition endswith (s suffix : string) : bool :=
  (String.length suffix <=? String.length s)%nat
  && String.eqb (drop (String.length s - String.length suffix) s) suffix.

(** [s.rfind(c)]: index of the last occurrence, [-1] when there is none. *)
Fixpoint rfind_from (c : ascii) (s : string) (pos last : Z) : Z :=
  match s with
  | EmptyString => last
  | String a t => rfind_from c t (pos + 1) (if Ascii.eqb a c then pos else last)
  end.
Definition rfind (c : ascii) (s : string) : Z := rfind_from c s 0 (-1).

(** [s.split(c)[0]]: everything before the first [c]. *)
Fixpoint split_head (c : ascii) (s : string) : string :=
  match s with
  | EmptyString => EmptyString
  | String a t => if Ascii.eqb a c then EmptyString else String a (split_head c t)
  end.

(** [''.join(c for c in s if keep(c))]. *)
Fixpoint filter (keep : ascii -> bool) (s : string) : string :=
  match s with
  | EmptyString => EmptyString
  | String a t => if keep a then String a (filter keep t) else filter keep t
  end.

Fixpoint lstrip (s : string) : string :=
  match s with
  | EmptyString => EmptyString
  | String a t => if isspace a then lstrip t else s
  end.

Fixpoint rstrip (s : string) : string :=
  match s with
  | EmptyString => EmptyString
  | String a t =>
      match rstrip t with
      | EmptyString => if isspace a then EmptyString else String a EmptyString
      | t' => String a t'
      end
  end.

(** [s.strip()]. *)
Definition strip (s : string) : string := rstrip (lstrip s).

(** Truth value of a string: [if s:]. *)
Definition truthy (s : string) : bool :=
  match s with EmptyString => false | _ => true end.

(** Every character of [s] satisfies [p]. *)
Fixpoint all_chars (p : ascii -> bool) (s : string) : bool :=
  match s with
  | EmptyString => true
  | String a t => p a && all_chars p t
  end.

(** [str(n)] for an integer. *)
Definition of_Z (z : Z) : string := NilZero.string_of_int (Z.to_int z).
Definition of_nat (n : nat) : string := NilZero.string_of_uint (Nat.to_uint n).

(** The double quote, as a one-character string. *)
Definition dquote : string := String (chr 34) EmptyString.

(** [os.path.basename] (posixpath): [i = p.rfind('/') + 1; return p[i:]]. *)
Definition basename (p : string) : string :=
  let i := (rfind "/" p + 1)%Z in
  drop (Z.to_nat i) p.

End PyStr.

(* ================================================================= *)
(** ** Python exceptions, results and effects *)

Module Py.

(** The exception classes that the module names in an [except] clause,
    and those of [requests.exceptions] and the builtins below them. *)
Inductive exn_class : Set :=
| Exception
| ValueError
| OSError
| JSONDecodeError            (* json.JSONDecodeError *)
| RequestException
| InvalidJSONError
| RequestsJSONDecodeError    (* requests.exceptions.JSONDecodeError *)
| HTTPError
| ConnectionError
| ProxyError
| SSLError
| Timeout
| ConnectTimeout
| ReadTimeout
| TooManyRedirects
| InvalidURL
| ChunkedEncodingError
| ContentDecodingError
| HTTPExceptionClass.        (* fastapi.HTTPException *)

Scheme Equality for exn_class.

(** Direct base classes, as declared in [requests/exceptions.py],
    [json/decoder.py] and [starlette/exceptions.py]. *)
Definition bases (c : exn_class) : list exn_class :=
  match c with
  | Exception => []
  | ValueError => [Exception]
  | OSError => [Exception]
  | JSONDecodeError => [ValueError]
  | RequestException => [OSError]
  | InvalidJSONError => [RequestException]
  | RequestsJSONDecodeError => [InvalidJSONError; JSONDecodeError]
  | HTTPError => [RequestException]
  | ConnectionError => [RequestException]
  | ProxyError => [ConnectionError]
  | SSLError => [ConnectionError]
  | Timeout => [RequestException]
  | ConnectTimeout => [ConnectionError; Timeout]
  | ReadTimeout => [Timeout]
  | TooManyRedirects => [RequestException]
  | InvalidURL => [RequestException; ValueError]
  | ChunkedEncodingError => [RequestException]
  | ContentDecodingError => [RequestException]
  | HTTPExceptionClass => [Exception]
  end.

Fixpoint subclass_upto (depth : nat) (c d : exn_class) : bool :=
  exn_class_beq c d ||
  match depth with
  | O => false
  | S k => existsb (fun b => subclass_upto k b d) (bases c)
  end.

(** [issubclass(c, d)]; the hierarchy above is five levels deep. *)
Definition issubclass (c d : exn_class) : bool := subclass_upto 5 c d.

(** A raised exception: an [HTTPException] carries a status and a
    detail, any other exception its class and its [str()]. *)
Inductive exn : Type :=
| HTTPException (status_code : Z) (detail : string)
| Error (cls : exn_class) (message : string).

Definition class_of (e : exn) : exn_class :=
  match e with
  | HTTPException _ _ => HTTPExceptionClass
  | Error c _ => c
  end.

Definition isinstance (e : exn) (c : exn_class) : bool :=
  issubclass (class_of e) c.

(** [str(e)]. *)
Definition str (e : exn) : string :=
  match e with
  | HTTPException s d => PyStr.of_Z s ++ ": " ++ d
  | Error _ m => m
  end.

Inductive result (A : Type) : Type :=
| Ok (a : A)
| Raise (e : exn).
Arguments Ok {A} a.
Arguments Raise {A} e.

(** What a run does to the outside world, in order. *)
Inductive event : Type :=
| EvGet (url : string) (params : list (string * string))
        (timeout : Z) (stream : bool)          (* requests.get *)
| EvReadBody                                   (* the whole body is read *)
| EvReadChunk (amt : N)                        (* one read of the raw stream *)
| EvClose                                      (* Response.close() *)
| EvPrint (line : string).                     (* print() *)

(** A computation: its result and the events it caused. *)
Definition M (A : Type) : Type := (result A * list event)%type.

Definition ret {A} (a : A) : M A := (Ok a, []).
Definition raise {A} (e : exn) : M A := (Raise e, []).
Definition emit (ev : event) : M unit := (Ok tt, [ev]).
Definition lift {A} (r : result A) : M A := (r, []).

Definition bind {A B} (m : M A) (k : A -> M B) : M B :=
  match m with
  | (Ok a, t) => let (r, t') := k a in (r, t ++ t')
  | (Raise e, t) => (Raise e, t)
  end.

(** [try: m  except ...: h e]; [h e = None] when no clause matches. *)
Definition try_except {A} (m : M A) (h : exn -> option (M A)) : M A :=
  match m with
  | (Ok a, t) => (Ok a, t)
  | (Raise e, t) =>
      match h e with
      | Some k => let (r, t') := k in (r, t ++ t')
      | None => (Raise e, t)
      end
  end.

(** [try: m  finally: fin]. *)
Definition try_finally {A} (m : M A) (fin : M unit) : M A :=
  let (r, t) := m in
  match fin with
  | (Ok _, t') => (r, t ++ t')
  | (Raise e, t') => (Raise e, t ++ t')
  end.

Definition trace {A} (m : M A) : list event := snd m.

Definition is_close (ev : event) : bool :=
  match ev with EvClose => true | _ => false end.
Definition is_get (ev : event) : bool :=
  match ev with EvGet _ _ _ _ => true | _ => false end.

(** Number of [close()] calls, and of outbound requests, in a trace. *)
Definition closes (t : list event) : nat := List.length (List.filter is_close t).
Definition gets (t : list event) : nat := List.length (List.filter is_get t).

End Py.

Declare Scope py_scope.
Delimit Scope py_scope with py.
Notation "x <- m ;; k" := (Py.bind m (fun x => k))
  (at level 61, m at next level, right associativity) : py_scope.
Notation "m ;;; k" := (Py.bind m (fun _ => k))
  (at level 61, right associativity) : py_scope.

(* ================================================================= *)
(** ** The module [main.py] *)

Module Proxy.
Import Py.
Local Open Scope py_scope.

#[local] Set Warnings "-register-all".

(** Values that [json.loads] returns and [JSONResponse] takes.  A float
    is kept by its decimal literal, or is one of [inf], [-inf] and
    [nan]. *)
Inductive json : Type :=
| JNull
| JBool (b : bool)
| JInt (z : Z)
| JFloat (literal : string)
| JStr (s : string)
| JList (items : list json)
| JDict (fields : list (string * json)).

(** A [requests.Response] obtained with [stream=True]: status, headers
    and the body still on the wire.  [body] is the content as [requests]
    hands it out, in arrival order; when [body_error] is set the
    transport raises it once these bytes have been handed out.
    [transfer] lists the sizes of the pieces in which [body] comes out
    of the transport, one for each transfer chunk of a chunked
    upstream; it is empty for a body sent in one piece.  [decoded]
    tells that [requests] decodes a [Content-Encoding]: [body] is the
    decoded content and a piece is what the decoder makes of one read. *)
Record Response : Type := {
  status_code : Z;
  headers : list (string * string);
  body : list byte;
  body_error : option exn;
  transfer : list nat;
  decoded : bool
}.

(** Everything the module imports and calls but does not define. *)
Record Platform : Type := {
  (** [requests.get(url, params=..., timeout=..., stream=...)] *)
  requests_get : string -> list (string * string) -> Z -> bool -> result Response;
  (** [json.loads] *)
  json_loads : string -> result json;
  (** [JSONResponse.render], run by the constructor:
      [json.dumps(content, allow_nan=False, ...).encode("utf-8")];
      the exception it raises, if any *)
  render_failure : json -> option exn;
  (** the decoding of a body into [Response.text] *)
  decode_text : list (string * string) -> list byte -> string;
  (** [urllib.parse.urlparse(url).path] *)
  urlparse_path : string -> result string;
  (** [mimetypes.types_map_inv]: extensions by (lower-case) type *)
  types_map_inv : list (string * list string)
}.

(** *** Dictionaries *)

(** A plain [dict] with string keys, in insertion order. *)
Definition dict := list (string * string).

Fixpoint dict_get (d : dict) (k : string) : option string :=
  match d with
  | [] => None
  | (k', v) :: d' => if String.eqb k' k then Some v else dict_get d' k
  end.

Fixpoint dict_set (d : dict) (k v : string) : dict :=
  match d with
  | [] => [(k, v)]
  | (k', v') :: d' =>
      if String.eqb k' k then (k', v) :: d' else (k', v') :: dict_set d' k v
  end.

Definition dict_get_default (d : dict) (k default : string) : string :=
  match dict_get d k with Some v => v | None => default end.

(** [requests.structures.CaseInsensitiveDict]: keys compare lower-cased. *)
Fixpoint ci_get (d : list (string * string)) (k : string) : option string :=
  match d with
  | [] => None
  | (k', v) :: d' =>
      if String.eqb (PyStr.lower k') (PyStr.lower k) then Some v else ci_get d' k
  end.

Definition ci_contains (d : list (string * string)) (k : string) : bool :=
  match ci_get d k with Some _ => true | None => false end.

Definition ci_get_default (d : list (string * string)) (k default : string) : string :=
  match ci_get d k with Some v => v | None => default end.

(** *** [requests.Response] methods *)

Definition Response_close (resp : Response) : M unit := emit EvClose.

(** [resp.content]: drains the stream. *)
Definition Response_content (resp : Response) : M (list byte) :=
  emit EvReadBody ;;;
  match body_error resp with
  | Some e => raise e
  | None => ret (body resp)
  end.

Section WithPlatform.
Variable P : Platform.

(** [resp.text] *)
Definition Response_text (resp : Response) : M string :=
  content <- Response_content resp ;;
  ret (decode_text P (headers resp) content).

(** [resp.json()]: a decoding error of [json.loads] is re-raised as
    [requests.exceptions.JSONDecodeError]. *)
Definition Response_json (resp : Response) : M json :=
  text <- Response_text resp ;;
  try_except (lift (json_loads P text))
    (fun e => if isinstance e JSONDecodeError
              then Some (raise (Error RequestsJSONDecodeError (str e)))
              else None).

(** *** [mimetypes] *)

Fixpoint assoc_list (tbl : list (string * list string)) (k : string) : list string :=
  match tbl with
  | [] => []
  | (k', v) :: tbl' => if String.eqb k' k then v else assoc_list tbl' k
  end.

Definition guess_all_extensions (type : string) : list string :=
  let type := PyStr.lower type in
  assoc_list (types_map_inv P) type.

Definition guess_extension (type : string) : option string :=
  match guess_all_extensions type with
  | [] => None
  | ext :: _ => Some ext
  end.

(** *** [_fetch_from_tele_social_sync] *)

(** The dictionary the helper returns, by its ["type"] entry. *)
Inductive fetch_result : Type :=
| error_upstream (response_object : Response)
| success (response_object : Response)
| exception (exception_type : string) (detail : string).

Definition _fetch_from_tele_social_sync
    (target_url api_base_url : string) (params : list (string * string))
    : M fetch_result :=
  try_except
    (emit (EvGet api_base_url params 90 true) ;;;
     upstream_response <- lift (requests_get P api_base_url params 90 true) ;;
     if (status_code upstream_response >=? 400)%Z
     then ret (error_upstream upstream_response)
     else ret (success upstream_response))
    (fun e =>
       if isinstance e Timeout then
         Some (ret (exception "Timeout"
           ("Request to upstream API timed out for URL: " ++ target_url)))
       else if isinstance e ConnectionError then
         Some (ret (exception "ConnectionError"
           ("Could not connect to upstream API for URL: " ++ target_url)))
       else if isinstance e RequestException then
         Some (ret (exception "RequestException"
           ("Upstream API request error for " ++ target_url ++ ": " ++ str e)))
       else None).

(** *** [get_content_from_tele_social] *)

Definition get_content_from_tele_social (target_url : string) : M Response :=
  let api_base_url := "https://tele-social.vercel.app/down" in
  let params := [("url", target_url)] in
  result_dict <- _fetch_from_tele_social_sync target_url api_base_url params ;;
  match result_dict with
  | exception exception_type detail =>
      if String.eqb exception_type "Timeout" then
        raise (HTTPException 504 detail)
      else if String.eqb exception_type "ConnectionError" then
        raise (HTTPException 503 detail)
      else
        raise (HTTPException 500 detail)
  | error_upstream response_object => ret response_object
  | success response_object => ret response_object
  end.

(** *** [_parse_json_and_close_sync], [_read_text_and_close_sync] *)

Definition _parse_json_and_close_sync (resp : Response) : M json :=
  try_finally (data <- Response_json resp ;; ret data) (Response_close resp).

Definition _read_text_and_close_sync (resp : Response) : M string :=
  try_finally (text_data <- Response_text resp ;; ret text_data) (Response_close resp).

(** *** [file_streaming_generator] *)

(** The asynchronous generator object.  Its frame is either not yet
    entered, suspended at the [yield] inside the [for] loop (with the
    part of the body that [iter_content] has not read yet), or
    finished. *)
Inductive gen_state : Type :=
| GenCreated
| GenSuspended (unread : list byte)
| GenClosed.

Record Generator : Type := {
  gen_resp : Response;
  gen_chunk_size : N;
  gen_state_of : gen_state
}.

Definition file_streaming_generator (resp : Response) : Generator :=
  {| gen_resp := resp; gen_chunk_size := 1024 * 64; gen_state_of := GenCreated |}%N.

Definition gen_at (g : Generator) (st : gen_state) : Generator :=
  {| gen_resp := gen_resp g; gen_chunk_size := gen_chunk_size g; gen_state_of := st |}.

(** What is left of the transfer chunk that holds position [consumed]
    of the body, and the whole remainder once the listed chunks are
    used up. *)
Fixpoint piece_left (transfer : list nat) (consumed remaining : nat) : nat :=
  match transfer with
  | [] => remaining
  | size :: rest =>
      if (consumed <? size)%nat then Nat.min (size - consumed) remaining
      else piece_left rest (consumed - size) remaining
  end.

(** The size of the next chunk: what has arrived, [chunk_size] at
    most; the output of a decoder is handed out whole. *)
Definition next_size (resp : Response) (chunk_size : N) (unread : list byte) : nat :=
  let consumed := List.length (body resp) - List.length unread in
  let arrived := piece_left (transfer resp) consumed (List.length unread) in
  if decoded resp then arrived
  else N.to_nat (N.min chunk_size (N.of_nat arrived)).

(** One step of the iterator of [resp.iter_content(chunk_size)]: a read
    of at most [chunk_size] bytes from the transport, which hands out
    the rest of the current transfer chunk when that is shorter, and
    what the decoder makes of the read when the content is decoded;
    [None] is exhaustion. *)
Definition iter_content_next (resp : Response) (chunk_size : N)
    (unread : list byte) : M (option (list byte) * list byte) :=
  emit (EvReadChunk chunk_size) ;;;
  match unread with
  | [] =>
      match body_error resp with
      | Some e => raise e
      | None => ret (None, [])
      end
  | _ => ret (Some (firstn (next_size resp chunk_size unread) unread),
              skipn (next_size resp chunk_size unread) unread)
  end.

(** What [__anext__] gives the consumer. *)
Inductive step_result : Type :=
| Yield (chunk : list byte)
| StopAsyncIteration
| GenRaise (e : exn).

(** Run the frame from the head of the [for] loop to the next [yield]
    or, through the [finally] clause, to its end. *)
Definition gen_resume (g : Generator) (unread : list byte)
    : step_result * Generator * list event :=
  match iter_content_next (gen_resp g) (gen_chunk_size g) unread with
  | (Ok (Some chunk, rest), t) => (Yield chunk, gen_at g (GenSuspended rest), t)
  | (Ok (None, _), t) =>
      (StopAsyncIteration, gen_at g GenClosed,
       t ++ trace (Response_close (gen_resp g)))
  | (Raise e, t) =>
      (GenRaise e, gen_at g GenClosed,
       t ++ trace (Response_close (gen_resp g)))
  end.

(** [__anext__]: enters the frame at its first call. *)
Definition gen_anext (g : Generator) : step_result * Generator * list event :=
  match gen_state_of g with
  | GenCreated => gen_resume g (body (gen_resp g))
  | GenSuspended unread => gen_resume g unread
  | GenClosed => (StopAsyncIteration, g, [])
  end.

(** [aclose()], also what finalisation of an abandoned generator does:
    a frame suspended at [yield] receives [GeneratorExit] there and
    runs its [finally] clause; a frame that was never entered has no
    [try] statement in progress and is only marked finished. *)
Definition gen_aclose (g : Generator) : Generator * list event :=
  match gen_state_of g with
  | GenCreated => (gen_at g GenClosed, [])
  | GenSuspended _ => (gen_at g GenClosed, trace (Response_close (gen_resp g)))
  | GenClosed => (g, [])
  end.

(** *** [download_content_via_proxy] *)

Inductive response : Type :=
| JSONResponse (content : json) (status : Z)
| StreamingResponse (body_iterator : Generator) (status : Z) (hdrs : dict).

(** [JSONResponse(content=..., status_code=...)]: the constructor
    renders the content and raises what rendering raises. *)
Definition JSONResponse_init (content : json) (status : Z) : M response :=
  match render_failure P content with
  | Some e => raise e
  | None => ret (JSONResponse content status)
  end.

(** [str.encode("latin-1")].  Every character of a string of this
    development is below 256, so the encoding succeeds; Python raises
    [UnicodeEncodeError] at a character above U+00FF, which these
    strings cannot hold. *)
Definition encode_latin1 (s : string) : result (list byte) :=
  Ok (list_byte_of_string s).

Fixpoint encode_headers (hdrs : dict) : result (list (list byte * list byte)) :=
  match hdrs with
  | [] => Ok []
  | (k, v) :: rest =>
      match encode_latin1 (PyStr.lower k), encode_latin1 v, encode_headers rest with
      | Ok k', Ok v', Ok rest' => Ok ((k', v') :: rest')
      | Raise e, _, _ => Raise e
      | _, Raise e, _ => Raise e
      | _, _, Raise e => Raise e
      end
  end.

(** [StreamingResponse(generator, status_code=..., headers=...)]: the
    constructor encodes the header names and values as latin-1. *)
Definition StreamingResponse_init (g : Generator) (status : Z) (hdrs : dict)
    : M response :=
  raw_headers <- lift (encode_headers hdrs) ;;
  ret (StreamingResponse g status hdrs).

Definition fallback_disposition : string :=
  "attachment; filename=" ++ PyStr.dquote ++ "downloaded_file" ++ PyStr.dquote.

(** Lines 120-128: the name before it is sanitised. *)
Definition derive_filename (path : string) (response_headers : dict) : string :=
  let path_basename := PyStr.basename path in
  let filename := "downloaded_file" in
  if PyStr.truthy path_basename then
    let filename_stem :=
      PyStr.split_head "#" (PyStr.split_head "?" path_basename) in
    let guessed_extension :=
      guess_extension
        (dict_get_default response_headers "Content-Type" "application/octet-stream") in
    match guessed_extension with
    | Some ext =>
        if PyStr.truthy ext
           && negb (PyStr.endswith (PyStr.lower filename_stem) (PyStr.lower ext))
        then (filename_stem ++ ext)%string
        else filename_stem
    | None => filename_stem
    end
  else filename.

(** The test of the comprehension on line 129. *)
Definition keep_char (c : ascii) : bool :=
  PyStr.isalnum c || existsb (Ascii.eqb c) ["."; "_"; "-"]%char.

(** Line 129. *)
Definition sanitize (filename : string) : string :=
  PyStr.strip (PyStr.filter keep_char filename).

(** Line 130. *)
Definition or_downloaded_file (filename : string) : string :=
  if negb (PyStr.truthy filename) then "downloaded_file" else filename.

(** Lines 118-133: the synthesised [Content-Disposition] value. *)
Definition synthesize_disposition (url : string) (response_headers : dict)
    : M string :=
  try_except
    (path <- lift (urlparse_path P url) ;;
     let filename := derive_filename path response_headers in
     let filename := sanitize filename in
     let filename := or_downloaded_file filename in
     ret ("attachment; filename=" ++ PyStr.dquote ++ filename ++ PyStr.dquote)%string)
    (fun e => if isinstance e Exception
              then Some (ret fallback_disposition)
              else None).

(** Lines 111-136: the headers of the streamed response. *)
Definition stream_headers (url : string) (upstream_response : Response) : M dict :=
  let response_headers : dict := [] in
  let response_headers :=
    if ci_contains (headers upstream_response) "content-type"
    then dict_set response_headers "Content-Type"
           (ci_get_default (headers upstream_response) "content-type" EmptyString)
    else response_headers in
  response_headers <-
    (if ci_contains (headers upstream_response) "content-disposition"
     then ret (dict_set response_headers "Content-Disposition"
                 (ci_get_default (headers upstream_response)
                    "content-disposition" EmptyString))
     else
       disposition <- synthesize_disposition url response_headers ;;
       ret (dict_set response_headers "Content-Disposition" disposition)) ;;
  let response_headers :=
    if ci_contains (headers upstream_response) "content-length"
    then dict_set response_headers "Content-Length"
           (ci_get_default (headers upstream_response) "content-length" EmptyString)
    else response_headers in
  ret response_headers.

Definition download_content_via_proxy (url : string) : M response :=
  if negb (PyStr.truthy url) then
    raise (HTTPException 400 "The 'url' query parameter is required.")
  else
    upstream_response <- get_content_from_tele_social url ;;
    let response_status_code := status_code upstream_response in
    let content_type :=
      PyStr.lower (ci_get_default (headers upstream_response) "content-type" EmptyString) in
    if (response_status_code >=? 400)%Z then
      try_except
        (error_body_text <- _read_text_and_close_sync upstream_response ;;
         try_except
           (error_json <- lift (json_loads P error_body_text) ;;
            JSONResponse_init error_json response_status_code)
           (fun e =>
              if isinstance e JSONDecodeError then
                Some (JSONResponse_init
                  (JDict [("error", JStr "Upstream API error");
                          ("details", JStr error_body_text);
                          ("upstream_status_code", JInt response_status_code)])
                  response_status_code)
              else None))
        (fun e =>
           if isinstance e Exception then
             Some (emit (EvPrint
                     ("Error: Failed to read or process error response body from upstream API for URL "
                      ++ url ++ ". Error: " ++ str e)%string) ;;;
                   raise (HTTPException 502
                     ("Failed to read or process error response from upstream API: "
                      ++ str e)%string))
           else None)
    else if PyStr.contains "application/json" content_type then
      try_except
        (json_data <- _parse_json_and_close_sync upstream_response ;;
         JSONResponse_init json_data response_status_code)
        (fun e =>
           if isinstance e RequestsJSONDecodeError || isinstance e JSONDecodeError then
             Some (emit (EvPrint
                     ("Error: Upstream API (URL: " ++ url
                      ++ ") declared Content-Type: application/json but failed to provide valid JSON. Upstream Decode Error: "
                      ++ str e)%string) ;;;
                   raise (HTTPException 502
                     "Upstream API returned malformed JSON despite declaring JSON content type."))
           else if isinstance e Exception then
             Some (emit (EvPrint
                     ("Error: Unexpected issue processing successful JSON response for URL "
                      ++ url ++ ". Error: " ++ str e)%string) ;;;
                   raise (HTTPException 500
                     "Server error while processing upstream JSON response."))
           else None)
    else
      response_headers <- stream_headers url upstream_response ;;
      StreamingResponse_init (file_streaming_generator upstream_response)
        response_status_code response_headers.


(** *** The route, as the framework serves it *)

(** What goes back to the client.  The parameter is declared
    [url: str = Query(...)]: it is required, and a request without it
    is answered by the framework's validation error (status 422)
    before the handler is called.  A raised [HTTPException] becomes a
    JSON body [{"detail": ...}] with its status; any other exception
    becomes the server's plain "Internal Server Error". *)
Inductive http_response : Type :=
| http_json (status : Z) (content : json)
| http_stream (status : Z) (hdrs : dict) (body_iterator : Generator)
| http_validation_error (loc : list string)
| http_internal_server_error.

Definition http_status (r : http_response) : Z :=
  match r with
  | http_json s _ => s
  | http_stream s _ _ => s
  | http_validation_error _ => 422
  | http_internal_server_error => 500
  end.

Definition serve (m : M response) : http_response * list event :=
  match m with
  | (Ok (JSONResponse content s), t) => (http_json s content, t)
  | (Ok (StreamingResponse g s h), t) => (http_stream s h g, t)
  | (Raise (HTTPException s d), t) => (http_json s (JDict [("detail", JStr d)]), t)
  | (Raise (Error _ _), t) => (http_internal_server_error, t)
  end.

(** [GET /download/] with the query parameter [url] absent ([None])
    or present. *)
Definition route (url : option string) : http_response * list event :=
  match url with
  | None => (http_validation_error ["query"; "url"], [])
  | Some url => serve (download_content_via_proxy url)
  end.

(** *** The consumer of a streamed response *)

(** The server either asks the generator for its next chunk or gives
    the generator up (the client went away, or sending failed). *)
Inductive action : Type :=
| Next
| Abandon.

(** Chunks sent, the generator afterwards, and the events caused. *)
Fixpoint consume (acts : list action) (g : Generator)
    : list (list byte) * Generator * list event :=
  match acts with
  | [] => ([], g, [])
  | Next :: acts' =>
      match gen_anext g with
      | (Yield chunk, g', t) =>
          let '(chunks, g'', t') := consume acts' g' in
          (chunk :: chunks, g'', t ++ t')
      | (_, g', t) => ([], g', t)
      end
  | Abandon :: _ =>
      let (g', t) := gen_aclose g in ([], g', t)
  end.


End WithPlatform.
End Proxy.

(* ================================================================= *)
(** ** A concrete platform *)

(** The theorems below hold for every [Platform].  To run the module on
    inputs, this section fixes one: [urlparse] after CPython 3.11, a JSON
    decoder for the fragment without fractions, exponents and escapes, an
    excerpt of the default [mimetypes] table, and Latin-1 text decoding. *)

Module Sample.
Import Py Proxy.

(** *** [urllib.parse.urlparse(url).path] *)

Definition scheme_chars : string :=
  "abcdefghijklmnopqrstuvwxyzABCDEFGHIJKLMNOPQRSTUVWXYZ0123456789+-.".

Definition uses_params : list string :=
  [EmptyString; "ftp"; "hdl"; "prospero"; "http"; "imap"; "https"; "shttp";
   "rtsp"; "rtspu"; "sip"; "sips"; "mms"; "sftp"; "tel"].

(** [url.lstrip(_WHATWG_C0_CONTROL_OR_SPACE)] *)
Fixpoint lstrip_c0 (s : string) : string :=
  match s with
  | EmptyString => EmptyString
  | String a t => if (PyStr.ord a <=? 32)%N then lstrip_c0 t else s
  end.

Definition is_unsafe (c : ascii) : bool :=
  N.eqb (PyStr.ord c) 9 || N.eqb (PyStr.ord c) 10 || N.eqb (PyStr.ord c) 13.

(** The longest prefix without a character of [stops]. *)
Fixpoint take_until (stops : string) (s : string) : string :=
  match s with
  | EmptyString => EmptyString
  | String a t =>
      if PyStr.mem_char a stops then EmptyString else String a (take_until stops t)
  end.

(** [(scheme, rest)]: a leading [scheme:] is split off when it starts
    with an ASCII letter and consists of scheme characters. *)
Definition split_scheme (url : string) : string * string :=
  let head := PyStr.split_head ":" url in
  match url with
  | String c _ =>
      if PyStr.mem_char ":" url
         && (PyStr.is_ascii_upper c || PyStr.is_ascii_lower c)
         && PyStr.all_chars (fun a => PyStr.mem_char a scheme_chars) head
      then (PyStr.lower head, PyStr.drop (S (String.length head)) url)
      else (EmptyString, url)
  | EmptyString => (EmptyString, url)
  end.

(** [_splitparams(url)[0]] *)
Definition strip_params (url : string) : string :=
  if PyStr.mem_char "/" url then
    let i := Z.to_nat (PyStr.rfind "/" url) in
    let dir := substring 0 i url in
    let last := PyStr.drop i url in
    if PyStr.mem_char ";" last then (dir ++ PyStr.split_head ";" last)%string else url
  else PyStr.split_head ";" url.

(** The bracketed-host and NFKC checks of the network location are left
    out; unbalanced brackets raise as in [urlsplit]. *)
Definition urlparse_path (url : string) : result string :=
  let url := PyStr.filter (fun c => negb (is_unsafe c)) (lstrip_c0 url) in
  let '(scheme, url) := split_scheme url in
  let after_netloc (url : string) : result string :=
    let url := PyStr.split_head "#" url in
    let url := PyStr.split_head "?" url in
    if existsb (String.eqb scheme) uses_params && PyStr.mem_char ";" url
    then Ok (strip_params url) else Ok url in
  if prefix "//" url then
    let rest := PyStr.drop 2 url in
    let netloc := take_until "/?#" rest in
    let url := PyStr.drop (String.length netloc) rest in
    if xorb (PyStr.mem_char "[" netloc) (PyStr.mem_char "]" netloc)
    then Raise (Error ValueError "Invalid IPv6 URL")
    else after_netloc url
  else after_netloc url.

(** *** A JSON decoder

    Strings without escapes; numbers, the three constants [NaN],
    [Infinity] and [-Infinity], lists and objects as [json.loads] reads
    them.  A number beyond the range of a double is read as an
    infinity.  The interpreter's limit on the digits of an integer is
    left out. *)

Definition is_ws (c : ascii) : bool :=
  let n := PyStr.ord c in
  N.eqb n 32 || N.eqb n 9 || N.eqb n 10 || N.eqb n 13.

Fixpoint skip_ws (s : string) : string :=
  match s with
  | EmptyString => EmptyString
  | String a t => if is_ws a then skip_ws t else s
  end.

Definition is_quote (c : ascii) : bool := N.eqb (PyStr.ord c) 34.

(** After an opening quote: the characters up to the closing quote. *)
Fixpoint string_body (s : string) : option (string * string) :=
  match s with
  | EmptyString => None
  | String a t =>
      if is_quote a then Some (EmptyString, t)
      else if Ascii.eqb a "\" || (PyStr.ord a <? 32)%N then None
      else match string_body t with
           | Some (u, r) => Some (String a u, r)
           | None => None
           end
  end.

Fixpoint digits (acc : Z) (s : string) : Z * string :=
  match s with
  | String a t =>
      if PyStr.is_ascii_digit a
      then digits (10 * acc + Z.of_N (PyStr.ord a - 48)) t
      else (acc, s)
  | EmptyString => (acc, s)
  end.

(** The longest prefix of decimal digits, and the rest. *)
Fixpoint take_digits (s : string) : string * string :=
  match s with
  | String a t =>
      if PyStr.is_ascii_digit a
      then let '(ds, r) := take_digits t in (String a ds, r)
      else (EmptyString, s)
  | EmptyString => (EmptyString, s)
  end.

(** The integer part: a lone zero, or digits that start with a digit
    other than zero. *)
Definition int_part (s : string) : option (string * string) :=
  match s with
  | String a t =>
      if Ascii.eqb a "0" then Some (String a EmptyString, t)
      else if PyStr.is_ascii_digit a then Some (take_digits s)
      else None
  | EmptyString => None
  end.

(** A dot and at least one digit: the digits of the fraction, none when
    there is no fraction. *)
Definition frac_part (s : string) : string * string :=
  match s with
  | String "." t =>
      match take_digits t with
      | (EmptyString, _) => (EmptyString, s)
      | (ds, r) => (ds, r)
      end
  | _ => (EmptyString, s)
  end.

(** [e] or [E], an optional sign and at least one digit: the exponent,
    [None] when there is none. *)
Definition exp_part (s : string) : option Z * string :=
  match s with
  | String e t =>
      if PyStr.mem_char e "eE" then
        let '(neg, t1) :=
          match t with
          | String "-" u => (true, u)
          | String "+" u => (false, u)
          | _ => (false, t)
          end in
        match take_digits t1 with
        | (EmptyString, _) => (None, s)
        | (ds, r) =>
            let z := fst (digits 0 ds) in
            (Some (if neg then (- z)%Z else z), r)
        end
      else (None, s)
  | EmptyString => (None, s)
  end.

(** Whether the decimal [mantissa * 10 ^ exponent] rounds to infinity as
    a double: at and above [2^1024 - 2^970]. *)
Definition overflows (mantissa exponent : Z) : bool :=
  let limit := (2 ^ 1024 - 2 ^ 970)%Z in
  if (mantissa =? 0)%Z then false
  else if (0 <=? exponent)%Z then
    if (400 <? exponent)%Z then true
    else (limit <=? mantissa * 10 ^ exponent)%Z
  else (limit * 10 ^ (- exponent) <=? mantissa)%Z.

(** An optional sign, the integer part, an optional fraction and an
    optional exponent: an integer when there is neither fraction nor
    exponent, a float otherwise. *)
Definition number (s : string) : option (json * string) :=
  let '(neg, s1) :=
    match s with
    | String "-" t => (true, t)
    | _ => (false, s)
    end in
  match int_part s1 with
  | Some (int_digits, r1) =>
      let '(frac_digits, r2) := frac_part r1 in
      let '(exponent, r3) := exp_part r2 in
      match frac_digits, exponent with
      | EmptyString, None =>
          let z := fst (digits 0 int_digits) in
          Some (JInt (if neg then (- z)%Z else z), r3)
      | _, _ =>
          let mantissa := fst (digits 0 (int_digits ++ frac_digits)) in
          let e := (match exponent with Some e => e | None => 0 end
                    - Z.of_nat (String.length frac_digits))%Z in
          if overflows mantissa e
          then Some (JFloat (if neg then "-inf" else "inf"), r3)
          else Some (JFloat (substring 0 (String.length s - String.length r3) s), r3)
      end
  | None => None
  end.

Definition literal (word : string) (v : json) (s : string) : option (json * string) :=
  if prefix word s then Some (v, PyStr.drop (String.length word) s) else None.

(** A later duplicate key replaces the value of the earlier one. *)
Fixpoint json_dict_set (d : list (string * json)) (k : string) (v : json)
    : list (string * json) :=
  match d with
  | [] => [(k, v)]
  | (k', v') :: d' =>
      if String.eqb k' k then (k', v) :: d' else (k', v') :: json_dict_set d' k v
  end.

Fixpoint value (fuel : nat) (s : string) : option (json * string) :=
  match fuel with
  | O => None
  | S k =>
      match skip_ws s with
      | EmptyString => None
      | String a t =>
          if Ascii.eqb a "n" then literal "null" JNull (String a t)
          else if Ascii.eqb a "t" then literal "true" (JBool true) (String a t)
          else if Ascii.eqb a "f" then literal "false" (JBool false) (String a t)
          else if is_quote a then
            match string_body t with
            | Some (u, r) => Some (JStr u, r)
            | None => None
            end
          else if Ascii.eqb a "[" then
            match skip_ws t with
            | String "]" r => Some (JList [], r)
            | _ => match items k t with
                   | Some (vs, r) => Some (JList vs, r)
                   | None => None
                   end
            end
          else if Ascii.eqb a "{" then
            match skip_ws t with
            | String "}" r => Some (JDict [], r)
            | _ => match fields k [] t with
                   | Some (fs, r) => Some (JDict fs, r)
                   | None => None
                   end
            end
          else if Ascii.eqb a "N" then literal "NaN" (JFloat "nan") (String a t)
          else if Ascii.eqb a "I" then literal "Infinity" (JFloat "inf") (String a t)
          else if prefix "-I" (String a t)
          then literal "-Infinity" (JFloat "-inf") (String a t)
          else number (String a t)
      end
  end
with items (fuel : nat) (s : string) : option (list json * string) :=
  match fuel with
  | O => None
  | S k =>
      match value k s with
      | Some (v, r) =>
          match skip_ws r with
          | String "," r' =>
              match items k r' with
              | Some (vs, r'') => Some (v :: vs, r'')
              | None => None
              end
          | String "]" r' => Some ([v], r')
          | _ => None
          end
      | None => None
      end
  end
with fields (fuel : nat) (acc : list (string * json)) (s : string)
    : option (list (string * json) * string) :=
  match fuel with
  | O => None
  | S k =>
      match skip_ws s with
      | String q t =>
          if is_quote q then
            match string_body t with
            | Some (key, r) =>
                match skip_ws r with
                | String ":" r1 =>
                    match value k r1 with
                    | Some (v, r2) =>
                        let acc := json_dict_set acc key v in
                        match skip_ws r2 with
                        | String "," r3 => fields k acc r3
                        | String "}" r3 => Some (acc, r3)
                        | _ => None
                        end
                    | None => None
                    end
                | _ => None
                end
            | None => None
            end
          else None
      | EmptyString => None
      end
  end.

Definition json_loads (text : string) : result json :=
  match value (S (String.length text)) text with
  | Some (v, r) =>
      match skip_ws r with
      | EmptyString => Ok v
      | _ => Raise (Error JSONDecodeError "Extra data")
      end
  | None => Raise (Error JSONDecodeError "Expecting value")
  end.

(** [json.dumps(..., allow_nan=False)] refuses the floats that are not
    finite. *)
Definition nonfinite (literal : string) : bool :=
  String.eqb literal "inf" || String.eqb literal "-inf" || String.eqb literal "nan".

Fixpoint has_nonfinite (v : json) : bool :=
  match v with
  | JFloat literal => nonfinite literal
  | JList items =>
      (fix any (l : list json) : bool :=
         match l with
         | [] => false
         | x :: rest => has_nonfinite x || any rest
         end) items
  | JDict fields =>
      (fix any (l : list (string * json)) : bool :=
         match l with
         | [] => false
         | (_, x) :: rest => has_nonfinite x || any rest
         end) fields
  | _ => false
  end.

Definition render_failure (content : json) : option exn :=
  if has_nonfinite content
  then Some (Error ValueError "Out of range float values are not JSON compliant")
  else None.

(** *** The rest of the platform *)

Definition decode_text (_ : list (string * string)) (content : list byte) : string :=
  string_of_list_byte content.

(** Some entries of [mimetypes.types_map], inverted. *)
Definition types_map_inv : list (string * list string) :=
  [("application/octet-stream", [".bin"; ".a"; ".dll"; ".exe"; ".o"; ".obj"; ".so"]);
   ("application/pdf", [".pdf"]);
   ("image/jpeg", [".jpg"; ".jpe"; ".jpeg"]);
   ("image/png", [".png"]);
   ("text/html", [".html"; ".htm"]);
   ("text/plain", [".txt"; ".bat"; ".c"; ".h"; ".ksh"; ".pl"]);
   ("video/mp4", [".mp4"])].

(** The platform on which the upstream call has outcome [answer]. *)
Definition platform (answer : result Response) : Platform :=
  {| requests_get := fun _ _ _ _ => answer;
     Proxy.json_loads := json_loads;
     Proxy.render_failure := render_failure;
     Proxy.decode_text := decode_text;
     Proxy.urlparse_path := urlparse_path;
     Proxy.types_map_inv := types_map_inv |}.

Definition bytes (s : string) : list byte := list_byte_of_string s.

Definition quoted (s : string) : string :=
  (PyStr.dquote ++ s ++ PyStr.dquote)%string.

(** Two upstream bodies. *)
Definition media_reply : string :=
  ("{" ++ quoted "media" ++ ": [" ++ quoted "a.mp4" ++ ", " ++ quoted "b.jpg"
   ++ "], " ++ quoted "ok" ++ ": true}")%string.

Definition rate_limit_reply : string :=
  ("{ " ++ quoted "error" ++ ": " ++ quoted "rate limited" ++ ", "
   ++ quoted "retry" ++ ": 30 }")%string.

Definition upstream (status : Z) (hdrs : list (string * string)) (content : string)
    : result Response :=
  Ok {| status_code := status; headers := hdrs;
        body := bytes content; body_error := None; transfer := [];
        decoded := false |}.



End Sample.

(* ================================================================= *)
(** ** Vocabulary of the statements *)

Module Obs.
Import Py Proxy.

(** The one outbound request of a run: its event and its outcome. *)
Definition get_event (url : string) : event :=
  EvGet "https://tele-social.vercel.app/down" [("url", url)] 90 true.

Definition upstream_call (P : Platform) (url : string) : result Response :=
  requests_get P "https://tele-social.vercel.app/down" [("url", url)] 90 true.

(** [detail] contains [url]. *)
Definition names_url (url detail : string) : Prop :=
  exists before after : string, detail = (before ++ url ++ after)%string.

(** The upstream declares a JSON body (line 100). *)
Definition declares_json (resp : Response) : bool :=
  PyStr.contains "application/json"
    (PyStr.lower (ci_get_default (headers resp) "content-type" EmptyString)).

(** The text that [resp.text] gives when the body arrives whole. *)
Definition text_of (P : Platform) (resp : Response) : string :=
  decode_text P (headers resp) (body resp).

Definition error_body_log (url : string) (e : exn) : event :=
  EvPrint ("Error: Failed to read or process error response body from upstream API for URL "
           ++ url ++ ". Error: " ++ str e)%string.

Definition error_body_failure (e : exn) : exn :=
  HTTPException 502
    ("Failed to read or process error response from upstream API: " ++ str e)%string.

Definition structured_error (text : string) (status : Z) : json :=
  JDict [("error", JStr "Upstream API error");
         ("details", JStr text);
         ("upstream_status_code", JInt status)].

Definition malformed_json : exn :=
  HTTPException 502
    "Upstream API returned malformed JSON despite declaring JSON content type.".

Definition json_processing_failure : exn :=
  HTTPException 500 "Server error while processing upstream JSON response.".

Definition malformed_log (url : string) (e : exn) : event :=
  EvPrint ("Error: Upstream API (URL: " ++ url
           ++ ") declared Content-Type: application/json but failed to provide valid JSON. Upstream Decode Error: "
           ++ str e)%string.

Definition json_failure_log (url : string) (e : exn) : event :=
  EvPrint ("Error: Unexpected issue processing successful JSON response for URL "
           ++ url ++ ". Error: " ++ str e)%string.

(** How the second branch answers an exception [e] raised while the body
    is read and parsed. *)
Definition json_branch_failure (url : string) (e : exn) : M response :=
  if isinstance e JSONDecodeError then
    (Raise malformed_json, [get_event url; EvReadBody; EvClose; malformed_log url e])
  else
    (Raise json_processing_failure,
     [get_event url; EvReadBody; EvClose; json_failure_log url e]).

(** The body [{"detail": ...}] of an answered [HTTPException]. *)
Definition detail_body (detail : string) : json := JDict [("detail", JStr detail)].

(** An upstream header copied under the name the handler gives it. *)
Definition copied (resp : Response) (name key : string) : dict :=
  match ci_get (headers resp) key with
  | Some v => [(name, v)]
  | None => []
  end.

Definition disposition_of (filename : string) : string :=
  ("attachment; filename=" ++ PyStr.dquote ++ filename ++ PyStr.dquote)%string.

(** The value that lines 118-133 give the header. *)
Definition disposition_value (P : Platform) (url : string) (response_headers : dict)
    : string :=
  match urlparse_path P url with
  | Ok path =>
      disposition_of (or_downloaded_file (sanitize (derive_filename P path response_headers)))
  | Raise _ => fallback_disposition
  end.

Definition outward_headers (P : Platform) (url : string) (resp : Response) : dict :=
  copied resp "Content-Type" "content-type"
  ++ [("Content-Disposition",
       match ci_get (headers resp) "content-disposition" with
       | Some v => v
       | None => disposition_value P url (copied resp "Content-Type" "content-type")
       end)]
  ++ copied resp "Content-Length" "content-length".

(** *** File names *)

(** The final segment of a path: what follows its last slash. *)
Fixpoint last_segment (path : string) : string :=
  match path with
  | EmptyString => EmptyString
  | String c rest =>
      if PyStr.mem_char "/" rest then last_segment rest
      else if Ascii.eqb c "/" then rest
      else path
  end.

(** [stem] ends with [ext], letter case aside. *)
Definition ends_with_ignoring_case (stem ext : string) : Prop :=
  exists front : string, PyStr.lower stem = (front ++ PyStr.lower ext)%string.

(** The derivation of the file name in the words of the specification:
    the final path segment without what follows a [?] or a [#]; the
    guessed extension is appended unless the stem already ends with it;
    without a final segment the name is [downloaded_file]. *)
Definition named_from (guess : option string) (path name : string) : Prop :=
  let stem := PyStr.split_head "#" (PyStr.split_head "?" (last_segment path)) in
  match last_segment path with
  | EmptyString => name = "downloaded_file"
  | _ =>
      match guess with
      | Some ext =>
          (ends_with_ignoring_case stem ext /\ name = stem)
          \/ (~ ends_with_ignoring_case stem ext /\ name = (stem ++ ext)%string)
      | None => name = stem
      end
  end.

(** The character class [[A-Za-z0-9._-]]. *)
Definition spec_char (c : ascii) : bool :=
  PyStr.is_ascii_alnum c || existsb (Ascii.eqb c) ["."; "_"; "-"]%char.

Definition is_ascii (c : ascii) : bool := (PyStr.ord c <? 128)%N.

(** The type from which the extension is guessed (line 124). *)
Definition guessed_type (resp : Response) : string :=
  match ci_get (headers resp) "content-type" with
  | Some v => v
  | None => "application/octet-stream"
  end.

(** No type of the table carries parameters. *)
Definition bare_types (tbl : list (string * list string)) : bool :=
  forallb (fun entry => negb (PyStr.mem_char ";" (fst entry))) tbl.

(** *** Streaming *)


Definition is_read (ev : event) : bool :=
  match ev with EvReadChunk _ => true | _ => false end.





(** Everything one request causes: the events of the route, then those of
    the server consuming the streamed body with the actions [acts]. *)
Definition session (P : Platform) (url : option string) (acts : list action)
    : list event :=
  match route P url with
  | (http_stream _ _ g, t) => t ++ snd (consume acts g)
  | (_, t) => t
  end.

(** *** The handler as a table *)

Definition is_print (ev : event) : bool :=
  match ev with EvPrint _ => true | _ => false end.

(** Number of diagnostic lines in a trace. *)
Definition prints (t : list event) : nat := List.length (List.filter is_print t).

(** A run after the events [t]. *)
Definition after {A : Type} (t : list event) (m : M A) : M A :=
  (fst m, (t ++ snd m)%list).

(** How an exception of the outbound request leaves the handler. *)
Definition transport_failure (url : string) (e : exn) : M response :=
  if isinstance e Timeout then
    (Raise (HTTPException 504
              ("Request to upstream API timed out for URL: " ++ url)%string),
     [get_event url])
  else if isinstance e ConnectionError then
    (Raise (HTTPException 503
              ("Could not connect to upstream API for URL: " ++ url)%string),
     [get_event url])
  else if isinstance e RequestException then
    (Raise (HTTPException 500
              ("Upstream API request error for " ++ url ++ ": " ++ str e)%string),
     [get_event url])
  else (Raise e, [get_event url]).

(** The first branch when the body cannot be read or processed. *)
Definition error_branch_failure (url : string) (e : exn) : M response :=
  (Raise (error_body_failure e),
   [get_event url; EvReadBody; EvClose; error_body_log url e]).

(** A [JSONResponse] built after the body was read and released; what
    rendering raises goes to [on_failure]. *)
Definition rendered (P : Platform) (url : string) (content : json) (status : Z)
    (on_failure : exn -> M response) : M response :=
  match render_failure P content with
  | None => (Ok (JSONResponse content status), [get_event url; EvReadBody; EvClose])
  | Some e => on_failure e
  end.

(** The answer of the inner [except json.JSONDecodeError] clause. *)
Definition structured_answer (P : Platform) (url : string) (resp : Response)
    : M response :=
  rendered P url (structured_error (text_of P resp) (status_code resp))
    (status_code resp) (error_branch_failure url).

(** What the first branch does with an exception raised inside the inner
    [try], by [json.loads] or by the construction of the response. *)
Definition error_branch_inner (P : Platform) (url : string) (resp : Response) (e : exn)
    : M response :=
  if isinstance e JSONDecodeError then structured_answer P url resp
  else error_branch_failure url e.

Definition error_branch_table (P : Platform) (url : string) (resp : Response)
    : M response :=
  match body_error resp with
  | Some e => error_branch_failure url e
  | None =>
      match json_loads P (text_of P resp) with
      | Ok v => rendered P url v (status_code resp) (error_branch_inner P url resp)
      | Raise e => error_branch_inner P url resp e
      end
  end.

Definition json_branch_table (P : Platform) (url : string) (resp : Response)
    : M response :=
  match body_error resp with
  | Some e => json_branch_failure url e
  | None =>
      match json_loads P (text_of P resp) with
      | Ok v => rendered P url v (status_code resp) (json_branch_failure url)
      | Raise e => json_branch_failure url e
      end
  end.

(** A run of a buffered branch: the request, the read of the whole body
    and the [close()], then either a JSON answer or one logged line and
    an [HTTPException]. *)
Definition buffered_run (url : string) (m : M response) : Prop :=
  (exists (v : json) (s : Z),
     m = (Ok (JSONResponse v s), [get_event url; EvReadBody; EvClose]))
  \/ (exists (s : Z) (detail line : string),
        m = (Raise (HTTPException s detail),
             [get_event url; EvReadBody; EvClose; EvPrint line])).

(** Every run of the handler on a non-empty [url], by the outcome of the
    outbound request and the class of the upstream response. *)
Definition handler_table (P : Platform) (url : string) : M response :=
  match upstream_call P url with
  | Raise e => transport_failure url e
  | Ok resp =>
      if (400 <=? status_code resp)%Z then error_branch_table P url resp
      else if declares_json resp then json_branch_table P url resp
      else
        (Ok (StreamingResponse (file_streaming_generator resp)
               (status_code resp) (outward_headers P url resp)),
         [get_event url])
  end.

(** The names under which the streamed response can carry a header. *)
Definition stream_header_names : list string :=
  ["Content-Type"; "Content-Disposition"; "Content-Length"].

(** *** The generator under arbitrary use *)

(** Every action is carried out, also on a finished generator: [Next] is
    [__anext__], [Abandon] is [aclose()]. *)
Fixpoint drive (acts : list action) (g : Generator)
    : list step_result * Generator * list event :=
  match acts with
  | [] => ([], g, [])
  | Next :: acts' =>
      let '(r, g', t) := gen_anext g in
      let '(rs, g'', t') := drive acts' g' in
      (r :: rs, g'', t ++ t')
  | Abandon :: acts' =>
      let (g', t) := gen_aclose g in
      let '(rs, g'', t') := drive acts' g' in
      (rs, g'', t ++ t')
  end.

(** How the iteration of a body ends. *)
Definition last_step (resp : Response) : step_result :=
  match body_error resp with
  | Some e => GenRaise e
  | None => StopAsyncIteration
  end.

(** *** Characters of a header value *)

(** Neither a control character nor one of the double quote, the
    backslash, the slash, the semicolon and the blank. *)
Definition header_safe (c : ascii) : bool :=
  let n := PyStr.ord c in
  negb ((n <? 32)%N || PyStr.between 127 160 n
        || N.eqb n 34 || N.eqb n 92 || N.eqb n 47 || N.eqb n 59 || N.eqb n 32).

End Obs.

(* ================================================================= *)
(** ** Exceptions and strings: basic facts *)

Import Py Proxy Obs.

Lemma every_class_is_an_exception (c : exn_class) : issubclass c Exception = true.
Proof. destruct c; reflexivity. Qed.

Lemma isinstance_Exception (e : exn) : isinstance e Exception = true.
Proof. apply every_class_is_an_exception. Qed.

Lemma requests_decode_error_is_json_error (c : exn_class) :
  issubclass c RequestsJSONDecodeError = true -> issubclass c JSONDecodeError = true.
Proof. destruct c; simpl; intro H; try discriminate H; reflexivity. Qed.

Lemma either_decode_error (e : exn) :
  isinstance e RequestsJSONDecodeError || isinstance e JSONDecodeError
  = isinstance e JSONDecodeError.
Proof.
  destruct (isinstance e RequestsJSONDecodeError) eqn:H; [|reflexivity].
  symmetry. now apply requests_decode_error_is_json_error.
Qed.

Lemma append_empty_r (s : string) : (s ++ EmptyString)%string = s.
Proof. induction s as [|a s IH]; simpl; [reflexivity | now rewrite IH]. Qed.

Lemma truthy_nonempty (s : string) : s <> EmptyString -> PyStr.truthy s = true.
Proof. destruct s; [congruence | reflexivity]. Qed.

(* ================================================================= *)
(** ** The upstream call *)

Section Fetch.
Variable P : Platform.
Variable url : string.

Lemma fetch_ok (resp : Response) :
  upstream_call P url = Ok resp ->
  get_content_from_tele_social P url = (Ok resp, [get_event url]).
Proof.
  unfold upstream_call, get_content_from_tele_social, _fetch_from_tele_social_sync.
  intros ->. simpl.
  destruct (status_code resp >=? 400)%Z; reflexivity.
Qed.

Lemma fetch_timeout (e : exn) :
  upstream_call P url = Raise e ->
  isinstance e Timeout = true ->
  get_content_from_tele_social P url =
    (Raise (HTTPException 504
              ("Request to upstream API timed out for URL: " ++ url)%string),
     [get_event url]).
Proof.
  unfold upstream_call, get_content_from_tele_social, _fetch_from_tele_social_sync.
  intros -> Ht. simpl. rewrite Ht. reflexivity.
Qed.

Lemma fetch_connection_error (e : exn) :
  upstream_call P url = Raise e ->
  isinstance e Timeout = false ->
  isinstance e ConnectionError = true ->
  get_content_from_tele_social P url =
    (Raise (HTTPException 503
              ("Could not connect to upstream API for URL: " ++ url)%string),
     [get_event url]).
Proof.
  unfold upstream_call, get_content_from_tele_social, _fetch_from_tele_social_sync.
  intros -> Ht Hc. simpl. rewrite Ht, Hc. reflexivity.
Qed.

Lemma fetch_request_exception (e : exn) :
  upstream_call P url = Raise e ->
  isinstance e Timeout = false ->
  isinstance e ConnectionError = false ->
  isinstance e RequestException = true ->
  get_content_from_tele_social P url =
    (Raise (HTTPException 500
              ("Upstream API request error for " ++ url ++ ": " ++ str e)%string),
     [get_event url]).
Proof.
  unfold upstream_call, get_content_from_tele_social, _fetch_from_tele_social_sync.
  intros -> Ht Hc Hr. simpl. rewrite Ht, Hc, Hr. reflexivity.
Qed.

(** An exception of the fetch leaves the handler as it is. *)
Lemma handler_fetch_raises (e : exn) (t : list event) :
  url <> EmptyString ->
  get_content_from_tele_social P url = (Raise e, t) ->
  download_content_via_proxy P url = (Raise e, t).
Proof.
  intros Hu Hf. unfold download_content_via_proxy.
  rewrite (truthy_nonempty _ Hu). simpl. unfold bind. rewrite Hf. reflexivity.
Qed.

End Fetch.

(** C4.  When the outbound request raises an exception of [requests]
    (a [RequestException]), the answer is a JSON error whose status is 504
    for a timeout, 503 for a connection error that is not a timeout, and
    500 otherwise; its detail contains the target URL; and the run made
    exactly one outbound request. *)
Theorem C4_transport_failure_statuses (P : Platform) (url : string) (e : exn) :
  url <> EmptyString ->
  upstream_call P url = Raise e ->
  isinstance e RequestException = true ->
  exists detail : string,
    names_url url detail
    /\ fst (route P (Some url)) =
         http_json (if isinstance e Timeout then 504
                    else if isinstance e ConnectionError then 503
                    else 500)
                   (detail_body detail)
    /\ gets (snd (route P (Some url))) = 1.
Proof.
  intros Hu Hcall Hreq. unfold route.
  destruct (isinstance e Timeout) eqn:Ht;
    [| destruct (isinstance e ConnectionError) eqn:Hc].
  - eexists. rewrite (handler_fetch_raises P url _ _ Hu (fetch_timeout P url e Hcall Ht)).
    simpl. repeat split.
    exists "Request to upstream API timed out for URL: ", EmptyString.
    now rewrite append_empty_r.
  - eexists.
    rewrite (handler_fetch_raises P url _ _ Hu (fetch_connection_error P url e Hcall Ht Hc)).
    simpl. repeat split.
    exists "Could not connect to upstream API for URL: ", EmptyString.
    now rewrite append_empty_r.
  - eexists.
    rewrite (handler_fetch_raises P url _ _ Hu
               (fetch_request_exception P url e Hcall Ht Hc Hreq)).
    simpl. repeat split.
    exists "Upstream API request error for ", (": " ++ str e)%string.
    reflexivity.
Qed.

(** C4, run: a connect timeout is both a timeout and a connection error
    and is answered with 504. *)
Lemma C4_transport_failure_statuses_witness :
  exists detail : string,
    names_url "https://www.instagram.com/p/Cxyz1234/" detail
    /\ fst (route (Sample.platform (Raise (Error ConnectTimeout "timed out")))
                  (Some "https://www.instagram.com/p/Cxyz1234/")) =
         http_json 504 (detail_body detail)
    /\ gets (snd (route (Sample.platform (Raise (Error ConnectTimeout "timed out")))
                        (Some "https://www.instagram.com/p/Cxyz1234/"))) = 1.
Proof.
  apply (C4_transport_failure_statuses
           (Sample.platform (Raise (Error ConnectTimeout "timed out")))
           "https://www.instagram.com/p/Cxyz1234/"
           (Error ConnectTimeout "timed out")).
  - apply String.eqb_neq. reflexivity.
  - reflexivity.
  - reflexivity.
Defined.

(* ================================================================= *)
(** ** The required parameter *)

(** C5, as stated, fails: a request without the [url] parameter is
    answered with 422, not 400. *)
Lemma C5_absent_url_is_not_400 :
  http_status (fst (route (Sample.platform (Raise (Error ConnectionError "unused"))) None))
  <> 400%Z.
Proof. simpl. discriminate. Qed.

(** C5, amended.  An empty [url] is answered by the handler with 400 and
    the detail "The 'url' query parameter is required."; an absent [url]
    is answered by the framework's validation error, status 422.  Neither
    run causes any event, so no outbound request is made. *)
Theorem C5_empty_or_absent_url (P : Platform) :
  route P (Some EmptyString) =
    (http_json 400 (detail_body "The 'url' query parameter is required."), [])
  /\ route P None = (http_validation_error ["query"; "url"], [])
  /\ http_status (fst (route P None)) = 422%Z
  /\ gets (snd (route P (Some EmptyString))) = 0
  /\ gets (snd (route P None)) = 0.
Proof. repeat split. Qed.

(* ================================================================= *)
(** ** The three branches, case by case *)

Section Branches.
Variable P : Platform.
Variable url : string.
Variable resp : Response.
Hypothesis url_given : url <> EmptyString.
Hypothesis answered : upstream_call P url = Ok resp.

(** Past the parameter check and the fetch. *)
Local Ltac after_fetch :=
  unfold download_content_via_proxy;
  rewrite (truthy_nonempty _ url_given), (fetch_ok P url resp answered).

(** The first test fails for a status below 400. *)
Local Ltac below_400 Hst Hge :=
  assert (Hge : (status_code resp >=? 400)%Z = false)
    by (rewrite Z.geb_leb; apply Z.leb_gt; exact Hst).

Lemma error_branch :
  (400 <= status_code resp)%Z ->
  download_content_via_proxy P url = error_branch_table P url resp.
Proof.
  intros Hst. after_fetch.
  apply Z.geb_le in Hst. simpl. rewrite Hst.
  unfold error_branch_table, error_branch_inner, structured_answer, rendered,
    error_branch_failure, structured_error.
  unfold _read_text_and_close_sync, Response_text, Response_content, Response_close,
    JSONResponse_init.
  destruct (body_error resp) as [e|]; simpl.
  - rewrite isinstance_Exception. reflexivity.
  - fold (text_of P resp).
    destruct (json_loads P (text_of P resp)) as [v|e]; simpl.
    + destruct (render_failure P v) as [e|]; simpl; [|reflexivity].
      destruct (isinstance e JSONDecodeError); simpl.
      * destruct (render_failure P _) as [e'|]; simpl; [|reflexivity].
        rewrite isinstance_Exception. reflexivity.
      * rewrite isinstance_Exception. reflexivity.
    + destruct (isinstance e JSONDecodeError); simpl.
      * destruct (render_failure P _) as [e'|]; simpl; [|reflexivity].
        rewrite isinstance_Exception. reflexivity.
      * rewrite isinstance_Exception. reflexivity.
Qed.

Lemma json_branch :
  (status_code resp < 400)%Z ->
  declares_json resp = true ->
  download_content_via_proxy P url = json_branch_table P url resp.
Proof.
  intros Hst Hct. after_fetch. below_400 Hst Hge.
  unfold declares_json in Hct. simpl. rewrite Hge, Hct.
  unfold json_branch_table, rendered.
  unfold _parse_json_and_close_sync, Response_json, Response_text,
    Response_content, Response_close, json_branch_failure, JSONResponse_init.
  destruct (body_error resp) as [e|]; simpl.
  - rewrite either_decode_error.
    destruct (isinstance e JSONDecodeError); simpl; [reflexivity|].
    rewrite isinstance_Exception. reflexivity.
  - fold (text_of P resp).
    destruct (json_loads P (text_of P resp)) as [v|e]; simpl.
    + destruct (render_failure P v) as [e|]; simpl; [|reflexivity].
      rewrite either_decode_error.
      destruct (isinstance e JSONDecodeError); simpl; [reflexivity|].
      rewrite isinstance_Exception. reflexivity.
    + destruct (isinstance e JSONDecodeError) eqn:He; simpl.
      * reflexivity.
      * rewrite either_decode_error, He. simpl.
        rewrite isinstance_Exception. reflexivity.
Qed.

Lemma synthesize_disposition_returns (response_headers : dict) :
  synthesize_disposition P url response_headers
  = (Ok (disposition_value P url response_headers), []).
Proof.
  unfold synthesize_disposition, disposition_value, disposition_of.
  destruct (urlparse_path P url) as [path|e]; simpl; [reflexivity|].
  rewrite isinstance_Exception. reflexivity.
Qed.

Lemma stream_headers_returns :
  stream_headers P url resp = (Ok (outward_headers P url resp), []).
Proof.
  unfold stream_headers, outward_headers, copied, ci_contains, ci_get_default.
  destruct (ci_get (headers resp) "content-type") as [ct|];
    destruct (ci_get (headers resp) "content-disposition") as [cd|];
    destruct (ci_get (headers resp) "content-length") as [cl|];
    simpl; rewrite ?synthesize_disposition_returns; reflexivity.
Qed.

(** The third branch: the headers are built without an event, and the
    answer is what the constructor makes of them. *)
Lemma stream_branch_constructs :
  (status_code resp < 400)%Z ->
  declares_json resp = false ->
  download_content_via_proxy P url =
    after [get_event url]
      (StreamingResponse_init (file_streaming_generator resp)
         (status_code resp) (outward_headers P url resp)).
Proof.
  intros Hst Hct. after_fetch. below_400 Hst Hge.
  unfold declares_json in Hct. simpl. rewrite Hge, Hct.
  rewrite stream_headers_returns. unfold after. simpl.
  destruct (StreamingResponse_init _ _ _) as [r t]. reflexivity.
Qed.

(** Header values of this development are Latin-1, which the constructor
    encodes. *)
Lemma StreamingResponse_init_returns (g : Generator) (status : Z) (hdrs : dict) :
  StreamingResponse_init g status hdrs = (Ok (StreamingResponse g status hdrs), []).
Proof.
  unfold StreamingResponse_init.
  assert (H : exists raw, encode_headers hdrs = Ok raw).
  { induction hdrs as [|[k v] rest [raw IH]]; simpl; [eauto|].
    rewrite IH. eauto. }
  destruct H as [raw ->]. reflexivity.
Qed.

Lemma stream_branch :
  (status_code resp < 400)%Z ->
  declares_json resp = false ->
  download_content_via_proxy P url =
    (Ok (StreamingResponse (file_streaming_generator resp)
           (status_code resp) (outward_headers P url resp)),
     [get_event url]).
Proof.
  intros Hst Hct. rewrite (stream_branch_constructs Hst Hct).
  now rewrite StreamingResponse_init_returns.
Qed.

End Branches.

(* ================================================================= *)
(** ** The handler as a table *)

Lemma timeout_is_request_exception (e : exn) :
  isinstance e Timeout = true -> isinstance e RequestException = true.
Proof.
  unfold isinstance. destruct (class_of e); simpl; intro H;
    try discriminate H; reflexivity.
Qed.

Lemma connection_error_is_request_exception (e : exn) :
  isinstance e ConnectionError = true -> isinstance e RequestException = true.
Proof.
  unfold isinstance. destruct (class_of e); simpl; intro H;
    try discriminate H; reflexivity.
Qed.

Lemma fetch_foreign_exception (P : Platform) (url : string) (e : exn) :
  upstream_call P url = Raise e ->
  isinstance e RequestException = false ->
  get_content_from_tele_social P url = (Raise e, [get_event url]).
Proof.
  intros Hcall He.
  assert (Ht : isinstance e Timeout = false).
  { destruct (isinstance e Timeout) eqn:H; [|reflexivity].
    apply timeout_is_request_exception in H. congruence. }
  assert (Hc : isinstance e ConnectionError = false).
  { destruct (isinstance e ConnectionError) eqn:H; [|reflexivity].
    apply connection_error_is_request_exception in H. congruence. }
  unfold upstream_call in Hcall.
  unfold get_content_from_tele_social, _fetch_from_tele_social_sync.
  rewrite Hcall. simpl. rewrite Ht, Hc, He. reflexivity.
Qed.

(** The rows of the two buffered branches, one goal for each. *)
Ltac table_rows :=
  unfold error_branch_table, error_branch_inner, structured_answer,
    json_branch_table, json_branch_failure, rendered, error_branch_failure;
  repeat match goal with
         | |- context [body_error ?r] =>
             let e := fresh "e" in destruct (body_error r) as [e|]
         | |- context [json_loads ?P ?t] =>
             let v := fresh "v" in let e := fresh "e" in
             destruct (json_loads P t) as [v|e]
         | |- context [render_failure ?P ?v] =>
             let e := fresh "e" in destruct (render_failure P v) as [e|]
         | |- context [isinstance ?e JSONDecodeError] =>
             destruct (isinstance e JSONDecodeError)
         end.

Lemma error_branch_table_run (P : Platform) (url : string) (resp : Response) :
  buffered_run url (error_branch_table P url resp).
Proof.
  unfold buffered_run, error_body_failure, error_body_log.
  table_rows;
    solve [left; do 2 eexists; reflexivity | right; do 3 eexists; reflexivity].
Qed.

Lemma json_branch_table_run (P : Platform) (url : string) (resp : Response) :
  buffered_run url (json_branch_table P url resp).
Proof.
  unfold buffered_run, malformed_json, json_processing_failure, malformed_log,
    json_failure_log.
  table_rows;
    solve [left; do 2 eexists; reflexivity | right; do 3 eexists; reflexivity].
Qed.

(** The handler on a non-empty [url] is its table. *)
Lemma handler_is_table (P : Platform) (url : string) :
  url <> EmptyString ->
  download_content_via_proxy P url = handler_table P url.
Proof.
  intros Hu. unfold handler_table.
  destruct (upstream_call P url) as [resp|e] eqn:Hcall.
  - destruct (400 <=? status_code resp)%Z eqn:Hst.
    + apply Z.leb_le in Hst. now apply error_branch.
    + apply Z.leb_gt in Hst. destruct (declares_json resp) eqn:Hct.
      * now apply json_branch.
      * now apply stream_branch.
  - unfold transport_failure.
    destruct (isinstance e Timeout) eqn:Ht;
      [| destruct (isinstance e ConnectionError) eqn:Hc;
         [| destruct (isinstance e RequestException) eqn:Hr]];
      apply handler_fetch_raises; try exact Hu.
    + now apply (fetch_timeout P url e).
    + now apply (fetch_connection_error P url e).
    + now apply (fetch_request_exception P url e).
    + now apply (fetch_foreign_exception P url e).
Qed.

(** A buffered branch answers with JSON. *)
Lemma buffered_run_serves_json (url : string) (m : M response) :
  buffered_run url m ->
  exists (s : Z) (v : json), fst (serve m) = http_json s v.
Proof.
  intros [(v & s & ->) | (s & d & line & ->)]; simpl; eauto.
Qed.

(** A streamed answer, read backwards: the request named a non-empty
    [url], the upstream answered below 400 without declaring JSON, and
    the answer carries the upstream status, the headers of lines 111-136
    and the generator over the upstream response, of which nothing has
    been read. *)
Lemma stream_answer_inv
    (P : Platform) (q : option string) (s : Z) (h : dict) (g : Generator) :
  fst (route P q) = http_stream s h g ->
  exists (url : string) (resp : Response),
    q = Some url
    /\ url <> EmptyString
    /\ upstream_call P url = Ok resp
    /\ (status_code resp < 400)%Z
    /\ declares_json resp = false
    /\ s = status_code resp
    /\ h = outward_headers P url resp
    /\ g = file_streaming_generator resp
    /\ snd (route P q) = [get_event url].
Proof.
  destruct q as [url|]; [|discriminate].
  destruct url as [|c0 url0]; [discriminate|].
  set (url := String c0 url0).
  assert (Hu : url <> EmptyString) by discriminate.
  unfold route. rewrite (handler_is_table P url Hu). unfold handler_table.
  destruct (upstream_call P url) as [resp|e] eqn:Hcall.
  - destruct (400 <=? status_code resp)%Z eqn:Hst.
    + intros H.
      destruct (buffered_run_serves_json url _ (error_branch_table_run P url resp))
        as (s' & v & Hjson).
      congruence.
    + destruct (declares_json resp) eqn:Hct.
      * intros H.
        destruct (buffered_run_serves_json url _ (json_branch_table_run P url resp))
          as (s' & v & Hjson).
        congruence.
      * simpl. intros H. injection H as <- <- <-.
        exists url, resp. apply Z.leb_gt in Hst. repeat split; auto.
  - unfold transport_failure.
    destruct (isinstance e Timeout);
      [| destruct (isinstance e ConnectionError);
         [| destruct (isinstance e RequestException)]];
      try discriminate.
    destruct e; discriminate.
Qed.
(** C1, as stated, fails: the upstream answers 503 with the body [1e999].
    The text parses, [json.loads] reads it as the float infinity, the
    construction of the [JSONResponse] refuses that value, and the outer
    [except Exception] answers 502 instead of the upstream's 503 with the
    parsed value. *)
Lemma C1_parsed_error_body_answered_502 :
  let P := Sample.platform (Sample.upstream 503 [("Content-Type", "text/plain")] "1e999") in
  json_loads P "1e999" = Ok (JFloat "inf")
  /\ fst (route P (Some "https://www.instagram.com/p/Cxyz1234/"))
     = http_json 502
         (detail_body
            "Failed to read or process error response from upstream API: Out of range float values are not JSON compliant")
  /\ http_status (fst (route P (Some "https://www.instagram.com/p/Cxyz1234/"))) <> 503%Z.
Proof. repeat split. vm_compute. discriminate. Qed.

(** C1, amended.  When the upstream status is 400 or more, whatever its
    headers, the answer is: 502 with a detail message if reading the body
    raises; the parsed value with the upstream status if the text parses
    and the value can be rendered; the object
    [{error, details, upstream_status_code}] with the upstream status if
    [json.loads], or the rendering of the parsed value, raises a JSON
    decoding error; and 502 with a detail message for every other
    exception: of [json.loads], of the rendering of the parsed value, or
    of the rendering of the object. *)
Theorem C1_upstream_error_branch (P : Platform) (url : string) (resp : Response) :
  url <> EmptyString ->
  upstream_call P url = Ok resp ->
  (400 <= status_code resp)%Z ->
  let failed (e : exn) :=
    http_json 502
      (detail_body ("Failed to read or process error response from upstream API: "
                    ++ str e)%string) in
  let details :=
    JDict [("error", JStr "Upstream API error");
           ("details", JStr (text_of P resp));
           ("upstream_status_code", JInt (status_code resp))] in
  let structured :=
    match render_failure P details with
    | None => http_json (status_code resp) details
    | Some e => failed e
    end in
  let inner (e : exn) :=
    if isinstance e JSONDecodeError then structured else failed e in
  fst (route P (Some url)) =
    match body_error resp with
    | Some e => failed e
    | None =>
        match json_loads P (text_of P resp) with
        | Ok v =>
            match render_failure P v with
            | None => http_json (status_code resp) v
            | Some e => inner e
            end
        | Raise e => inner e
        end
    end.
Proof.
  intros Hu Hcall Hst. cbv zeta. unfold route.
  rewrite (error_branch P url resp Hu Hcall Hst).
  unfold error_branch_table, error_branch_inner, structured_answer, rendered,
    error_branch_failure, structured_error.
  destruct (body_error resp) as [e|]; [reflexivity|].
  destruct (json_loads P (text_of P resp)) as [v|e].
  - destruct (render_failure P v) as [e|]; [|reflexivity].
    destruct (isinstance e JSONDecodeError); [|reflexivity].
    destruct (render_failure P _); reflexivity.
  - destruct (isinstance e JSONDecodeError); [|reflexivity].
    destruct (render_failure P _); reflexivity.
Qed.

(** C1, run: a 404 whose body is not JSON although the upstream declares
    [application/json]; a 429 with a JSON body under another type; a 503
    whose body parses to a value that cannot be rendered; a 500 whose
    body cannot be read. *)
Lemma C1_upstream_error_branch_witness :
  (fst (route (Sample.platform
                 (Sample.upstream 404 [("Content-Type", "application/json")] "Not Found"))
              (Some "https://www.instagram.com/p/Cxyz1234/"))
   = http_json 404
       (JDict [("error", JStr "Upstream API error");
               ("details", JStr "Not Found");
               ("upstream_status_code", JInt 404)]))
  /\ (fst (route (Sample.platform
                 (Sample.upstream 429 [("Content-Type", "video/mp4")] Sample.rate_limit_reply))
              (Some "https://www.instagram.com/p/Cxyz1234/"))
   = http_json 429 (JDict [("error", JStr "rate limited"); ("retry", JInt 30)]))
  /\ (fst (route (Sample.platform
                 (Sample.upstream 503 [] "1e999"))
              (Some "https://www.instagram.com/p/Cxyz1234/"))
   = http_json 502
       (detail_body
          "Failed to read or process error response from upstream API: Out of range float values are not JSON compliant"))
  /\ (fst (route (Sample.platform
                 (Ok {| status_code := 500; headers := [];
                       body := []; body_error := Some (Error ChunkedEncodingError "Connection broken");
                       transfer := []; decoded := false |}))
              (Some "https://www.instagram.com/p/Cxyz1234/"))
   = http_json 502
       (detail_body
          "Failed to read or process error response from upstream API: Connection broken")).
Proof.
  repeat match goal with |- _ /\ _ => split end.
  - apply (C1_upstream_error_branch
             (Sample.platform
                (Sample.upstream 404 [("Content-Type", "application/json")] "Not Found"))
             "https://www.instagram.com/p/Cxyz1234/"
             {| status_code := 404; headers := [("Content-Type", "application/json")];
              body := Sample.bytes "Not Found"; body_error := None;
              transfer := []; decoded := false |}).
    + apply String.eqb_neq. reflexivity.
    + reflexivity.
    + simpl. lia.
  - apply (C1_upstream_error_branch
             (Sample.platform
                (Sample.upstream 429 [("Content-Type", "video/mp4")] Sample.rate_limit_reply))
             "https://www.instagram.com/p/Cxyz1234/"
             {| status_code := 429; headers := [("Content-Type", "video/mp4")];
              body := Sample.bytes Sample.rate_limit_reply; body_error := None;
              transfer := []; decoded := false |}).
    + apply String.eqb_neq. reflexivity.
    + reflexivity.
    + simpl. lia.
  - apply (C1_upstream_error_branch
             (Sample.platform
                (Sample.upstream 503 [] "1e999"))
             "https://www.instagram.com/p/Cxyz1234/"
             {| status_code := 503; headers := [];
              body := Sample.bytes "1e999"; body_error := None;
              transfer := []; decoded := false |}).
    + apply String.eqb_neq. reflexivity.
    + reflexivity.
    + simpl. lia.
  - apply (C1_upstream_error_branch
             (Sample.platform
                (Ok {| status_code := 500; headers := [];
                       body := []; body_error := Some (Error ChunkedEncodingError "Connection broken");
                       transfer := []; decoded := false |}))
             "https://www.instagram.com/p/Cxyz1234/"
             {| status_code := 500; headers := [];
              body := []; body_error := Some (Error ChunkedEncodingError "Connection broken");
              transfer := []; decoded := false |}).
    + apply String.eqb_neq. reflexivity.
    + reflexivity.
    + simpl. lia.
Defined.

Example error_branch_passes_json_through :
  fst (route (Sample.platform
                (Sample.upstream 429 [("Content-Type", "text/plain")]
                   Sample.rate_limit_reply))
             (Some "https://www.instagram.com/p/Cxyz1234/"))
  = http_json 429 (JDict [("error", JStr "rate limited"); ("retry", JInt 30)]).
Proof. reflexivity. Qed.

Example error_branch_failed_read :
  fst (route (Sample.platform
                (Ok {| status_code := 500; headers := [];
                       body := [];
                       body_error := Some (Error ChunkedEncodingError "Connection broken");
                       transfer := []; decoded := false |}))
             (Some "https://www.instagram.com/p/Cxyz1234/"))
  = http_json 502
      (detail_body
         "Failed to read or process error response from upstream API: Connection broken").
Proof. reflexivity. Qed.

(** C2, as stated, fails: the upstream answers 200 with
    [Content-Type: application/json] and the body [1e999], a number of
    the JSON grammar.  [json.loads] reads it as the float infinity, the
    construction of the [JSONResponse] refuses that value, and the answer
    is 500. *)
Lemma C2_valid_json_answered_500 :
  let P := Sample.platform
             (Sample.upstream 200 [("Content-Type", "application/json")] "1e999") in
  json_loads P "1e999" = Ok (JFloat "inf")
  /\ fst (route P (Some "https://www.instagram.com/p/Cxyz1234/"))
     = http_json 500 (detail_body "Server error while processing upstream JSON response.").
Proof. split; reflexivity. Qed.

(** C2, amended.  When the upstream status is below 400, its
    [Content-Type] contains [application/json] in any letter case, and its
    body parses as JSON, the answer carries the upstream status and the
    parsed value unchanged if the value can be rendered; if rendering
    raises, the answer is 500 with the fixed detail about a server error
    (502 with the fixed detail about malformed JSON for a JSON decoding
    error). *)
Theorem C2_json_passthrough (P : Platform) (url : string) (resp : Response) (v : json) :
  url <> EmptyString ->
  upstream_call P url = Ok resp ->
  (status_code resp < 400)%Z ->
  declares_json resp = true ->
  body_error resp = None ->
  json_loads P (text_of P resp) = Ok v ->
  fst (route P (Some url)) =
    match render_failure P v with
    | None => http_json (status_code resp) v
    | Some e =>
        if isinstance e JSONDecodeError then
          http_json 502
            (detail_body
               "Upstream API returned malformed JSON despite declaring JSON content type.")
        else
          http_json 500
            (detail_body "Server error while processing upstream JSON response.")
    end.
Proof.
  intros Hu Hcall Hst Hct Hbody Hjson. unfold route.
  rewrite (json_branch P url resp Hu Hcall Hst Hct).
  unfold json_branch_table, rendered, json_branch_failure.
  rewrite Hbody, Hjson.
  destruct (render_failure P v) as [e|]; [|reflexivity].
  destruct (isinstance e JSONDecodeError); reflexivity.
Qed.

(** C2, run: a JSON object, passed through; a list with a number beyond
    the range of a double, refused. *)
Lemma C2_json_passthrough_witness :
  (fst (route (Sample.platform
                 (Sample.upstream 200 [("content-type", "Application/JSON; charset=utf-8")] Sample.media_reply))
              (Some "https://www.instagram.com/p/Cxyz1234/"))
   = http_json 200
       (JDict [("media", JList [JStr "a.mp4"; JStr "b.jpg"]); ("ok", JBool true)]))
  /\ (fst (route (Sample.platform
                 (Sample.upstream 200 [("Content-Type", "application/json")] "[1.5, 1e999]"))
              (Some "https://www.instagram.com/p/Cxyz1234/"))
   = http_json 500 (detail_body "Server error while processing upstream JSON response.")).
Proof.
  repeat match goal with |- _ /\ _ => split end.
  - apply (C2_json_passthrough
             (Sample.platform
                (Sample.upstream 200 [("content-type", "Application/JSON; charset=utf-8")] Sample.media_reply))
             "https://www.instagram.com/p/Cxyz1234/"
             {| status_code := 200; headers := [("content-type", "Application/JSON; charset=utf-8")];
              body := Sample.bytes Sample.media_reply; body_error := None;
              transfer := []; decoded := false |}
             (JDict [("media", JList [JStr "a.mp4"; JStr "b.jpg"]); ("ok", JBool true)])).
    + apply String.eqb_neq. reflexivity.
    + reflexivity.
    + simpl. lia.
    + reflexivity.
    + reflexivity.
    + reflexivity.
  - apply (C2_json_passthrough
             (Sample.platform
                (Sample.upstream 200 [("Content-Type", "application/json")] "[1.5, 1e999]"))
             "https://www.instagram.com/p/Cxyz1234/"
             {| status_code := 200; headers := [("Content-Type", "application/json")];
              body := Sample.bytes "[1.5, 1e999]"; body_error := None;
              transfer := []; decoded := false |}
             (JList [JFloat "1.5"; JFloat "inf"])).
    + apply String.eqb_neq. reflexivity.
    + reflexivity.
    + simpl. lia.
    + reflexivity.
    + reflexivity.
    + reflexivity.
Defined.

(** C6, as stated, fails: the upstream answers 200 with
    [Content-Type: application/json] and the body [NaN], which is not
    JSON.  [json.loads] accepts it, the construction of the
    [JSONResponse] refuses the value, and the answer is 500, not 502. *)
Lemma C6_invalid_json_answered_500 :
  let P := Sample.platform
             (Sample.upstream 200 [("Content-Type", "application/json")] "NaN") in
  json_loads P "NaN" = Ok (JFloat "nan")
  /\ fst (route P (Some "https://www.instagram.com/p/Cxyz1234/"))
     = http_json 500 (detail_body "Server error while processing upstream JSON response.")
  /\ http_status (fst (route P (Some "https://www.instagram.com/p/Cxyz1234/"))) <> 502%Z.
Proof. repeat split. vm_compute. discriminate. Qed.

(** C6, amended.  When the upstream status is below 400 and its
    [Content-Type] declares JSON, an exception [e] raised in the branch,
    by the read of the body, by [json.loads] or by the construction of
    the [JSONResponse] from the parsed value, is answered with 502 and
    the fixed detail about malformed JSON if [e] is a JSON decoding
    error, and with 500 and the fixed detail about a server error
    otherwise. *)
Theorem C6_json_branch_failures (P : Platform) (url : string) (resp : Response) (e : exn) :
  url <> EmptyString ->
  upstream_call P url = Ok resp ->
  (status_code resp < 400)%Z ->
  declares_json resp = true ->
  body_error resp = Some e
  \/ (body_error resp = None /\ json_loads P (text_of P resp) = Raise e)
  \/ (exists v : json,
        body_error resp = None
        /\ json_loads P (text_of P resp) = Ok v
        /\ render_failure P v = Some e) ->
  fst (route P (Some url)) =
    if isinstance e JSONDecodeError then
      http_json 502
        (detail_body
           "Upstream API returned malformed JSON despite declaring JSON content type.")
    else
      http_json 500 (detail_body "Server error while processing upstream JSON response.").
Proof.
  intros Hu Hcall Hst Hct Hfail. unfold route.
  rewrite (json_branch P url resp Hu Hcall Hst Hct).
  unfold json_branch_table, rendered, json_branch_failure.
  destruct Hfail as [Hbody | [[Hbody Hjson] | (v & Hbody & Hjson & Hrender)]].
  - rewrite Hbody. destruct (isinstance e JSONDecodeError); reflexivity.
  - rewrite Hbody, Hjson. destruct (isinstance e JSONDecodeError); reflexivity.
  - rewrite Hbody, Hjson, Hrender. destruct (isinstance e JSONDecodeError); reflexivity.
Qed.

(** C6, run: a body that is not JSON, a body that cannot be read, and a
    body that parses to a value that cannot be rendered. *)
Lemma C6_json_branch_failures_witness :
  (fst (route (Sample.platform
                 (Sample.upstream 200 [("Content-Type", "application/json")] "<html>oops</html>"))
              (Some "https://www.instagram.com/p/Cxyz1234/"))
   = http_json 502
       (detail_body
          "Upstream API returned malformed JSON despite declaring JSON content type."))
  /\ (fst (route (Sample.platform
                 (Ok {| status_code := 200; headers := [("Content-Type", "application/json")];
                       body := []; body_error := Some (Error ChunkedEncodingError "Connection broken");
                       transfer := []; decoded := false |}))
              (Some "https://www.instagram.com/p/Cxyz1234/"))
   = http_json 500 (detail_body "Server error while processing upstream JSON response."))
  /\ (fst (route (Sample.platform
                 (Sample.upstream 200 [("Content-Type", "application/json")] "NaN"))
              (Some "https://www.instagram.com/p/Cxyz1234/"))
   = http_json 500 (detail_body "Server error while processing upstream JSON response.")).
Proof.
  repeat match goal with |- _ /\ _ => split end.
  - apply (C6_json_branch_failures
             (Sample.platform
                (Sample.upstream 200 [("Content-Type", "application/json")] "<html>oops</html>"))
             "https://www.instagram.com/p/Cxyz1234/"
             {| status_code := 200; headers := [("Content-Type", "application/json")];
              body := Sample.bytes "<html>oops</html>"; body_error := None;
              transfer := []; decoded := false |}
             (Error JSONDecodeError "Expecting value")).
    + apply String.eqb_neq. reflexivity.
    + reflexivity.
    + simpl. lia.
    + reflexivity.
    + right. left. split; reflexivity.
  - apply (C6_json_branch_failures
             (Sample.platform
                (Ok {| status_code := 200; headers := [("Content-Type", "application/json")];
                       body := []; body_error := Some (Error ChunkedEncodingError "Connection broken");
                       transfer := []; decoded := false |}))
             "https://www.instagram.com/p/Cxyz1234/"
             {| status_code := 200; headers := [("Content-Type", "application/json")];
              body := []; body_error := Some (Error ChunkedEncodingError "Connection broken");
              transfer := []; decoded := false |}
             (Error ChunkedEncodingError "Connection broken")).
    + apply String.eqb_neq. reflexivity.
    + reflexivity.
    + simpl. lia.
    + reflexivity.
    + left. reflexivity.
  - apply (C6_json_branch_failures
             (Sample.platform
                (Sample.upstream 200 [("Content-Type", "application/json")] "NaN"))
             "https://www.instagram.com/p/Cxyz1234/"
             {| status_code := 200; headers := [("Content-Type", "application/json")];
              body := Sample.bytes "NaN"; body_error := None;
              transfer := []; decoded := false |}
             (Error ValueError "Out of range float values are not JSON compliant")).
    + apply String.eqb_neq. reflexivity.
    + reflexivity.
    + simpl. lia.
    + reflexivity.
    + right. right. exists (JFloat "nan"). repeat split; reflexivity.
Defined.

Example json_branch_failed_read :
  fst (route (Sample.platform
                (Ok {| status_code := 200; headers := [("Content-Type", "application/json")];
                       body := [];
                       body_error := Some (Error ChunkedEncodingError "Connection broken");
                       transfer := []; decoded := false |}))
             (Some "https://www.instagram.com/p/Cxyz1234/"))
  = http_json 500 (detail_body "Server error while processing upstream JSON response.").
Proof. reflexivity. Qed.

(* ================================================================= *)
(** ** The streaming generator *)




Section Generator.
Variable g : Generator.


Lemma resume_chunk (b : byte) (u : list byte) :
  let size := next_size (gen_resp g) (gen_chunk_size g) (b :: u) in
  gen_resume g (b :: u) =
    (Yield (firstn size (b :: u)), gen_at g (GenSuspended (skipn size (b :: u))),
     [EvReadChunk (gen_chunk_size g)]).
Proof. reflexivity. Qed.

Lemma anext_resumes (u : list byte) :
  gen_state_of g = GenSuspended u
  \/ (gen_state_of g = GenCreated /\ u = body (gen_resp g)) ->
  gen_anext g = gen_resume g u.
Proof.
  unfold gen_anext. intros [-> | [-> ->]]; reflexivity.
Qed.

End Generator.


Lemma closes_app (t t' : list event) : closes (t ++ t') = closes t + closes t'.
Proof. unfold closes. now rewrite List.filter_app, List.length_app. Qed.







(* ================================================================= *)
(** ** Releasing the upstream connection *)




(** A generator given up before its first step is finished without a
    [close()]: in the streaming branch such a request ends with none. *)
Lemma abandoned_before_entry_never_closes (P : Platform) (url : string) (resp : Response)
    (acts : list action) :
  url <> EmptyString ->
  upstream_call P url = Ok resp ->
  (status_code resp < 400)%Z ->
  declares_json resp = false ->
  closes (session P (Some url) (Abandon :: acts)) = 0.
Proof.
  intros Hu Hcall Hst Hct. unfold session, route.
  rewrite (stream_branch P url resp Hu Hcall Hst Hct). reflexivity.
Qed.

(** C9 fails on this run: the upstream answers 200 with a video, the
    handler returns the streamed response, and the server gives the
    generator up before asking it for a first chunk.  The frame was never
    entered, its [finally] clause does not run, and the request ends with
    no [close()] at all. *)
Theorem C9_unentered_generator_never_closes :
  let P := Sample.platform
             (Sample.upstream 200 [("Content-Type", "video/mp4")] "hello") in
  let url := Some "https://www.instagram.com/p/Cxyz1234/" in
  (exists hdrs g, fst (route P url) = http_stream 200 hdrs g
                  /\ gen_state_of (snd (fst (consume [Abandon] g))) = GenClosed)
  /\ closes (session P url [Abandon]) = 0
  /\ closes (session P url [Next; Abandon]) = 1.
Proof.
  split; [|split]; [do 2 eexists; split|..]; vm_compute; reflexivity.
Qed.

(* ================================================================= *)
(** ** Strings: prefixes, suffixes, segments *)

Section StringFacts.

Lemma append_assoc (a b c : string) : ((a ++ b) ++ c = a ++ (b ++ c))%string.
Proof. induction a as [|x a IH]; simpl; [reflexivity | now rewrite IH]. Qed.

Lemma length_append (a b : string) :
  String.length (a ++ b) = String.length a + String.length b.
Proof. induction a as [|x a IH]; simpl; [reflexivity | now rewrite IH]. Qed.

Lemma drop_append (a b : string) : PyStr.drop (String.length a) (a ++ b) = b.
Proof. induction a as [|x a IH]; simpl; [now destruct b | exact IH]. Qed.

Lemma take_drop (n : nat) :
  forall s : string, (substring 0 n s ++ PyStr.drop n s)%string = s.
Proof.
  induction n as [|n IH]; intros [|x s]; simpl; try reflexivity.
  now rewrite IH.
Qed.

Lemma endswith_spec (s suffix : string) :
  PyStr.endswith s suffix = true <-> exists front, s = (front ++ suffix)%string.
Proof.
  unfold PyStr.endswith. split.
  - intros H. apply andb_true_iff in H as [_ H]. apply String.eqb_eq in H.
    remember (String.length s - String.length suffix) as n eqn:Hn.
    exists (substring 0 n s). rewrite <- H. symmetry. apply take_drop.
  - intros [front ->]. rewrite length_append. apply andb_true_iff. split.
    + apply Nat.leb_le. lia.
    + replace (String.length front + String.length suffix - String.length suffix)
        with (String.length front) by lia.
      rewrite drop_append. apply String.eqb_refl.
Qed.

Lemma no_slash_last_segment (s : string) :
  PyStr.mem_char "/" s = false -> last_segment s = s.
Proof.
  destruct s as [|c s]; [reflexivity|]. simpl. intros H.
  apply orb_false_iff in H as [Hc Hs]. now rewrite Hs, Hc.
Qed.

(** [rfind] scans the whole string and remembers the last slash. *)
Lemma rfind_from_last_segment (s : string) :
  forall pos last : Z,
    (last < pos)%Z ->
    if PyStr.mem_char "/" s
    then (pos <= PyStr.rfind_from "/" s pos last)%Z
         /\ PyStr.drop (Z.to_nat (PyStr.rfind_from "/" s pos last - pos + 1)) s
            = last_segment s
    else PyStr.rfind_from "/" s pos last = last.
Proof.
  induction s as [|c s IH]; intros pos last Hlt; [reflexivity|].
  cbn [PyStr.mem_char PyStr.rfind_from last_segment].
  set (last' := if Ascii.eqb c "/" then pos else last).
  assert (Hlt' : (last' < pos + 1)%Z) by (unfold last'; destruct (Ascii.eqb c "/"); lia).
  specialize (IH (pos + 1)%Z last' Hlt').
  destruct (PyStr.mem_char "/" s).
  - rewrite orb_true_r. destruct IH as [Hpos Hdrop]. split; [lia|].
    rewrite <- Hdrop.
    replace (PyStr.rfind_from "/" s (pos + 1) last' - pos + 1)%Z
      with (Z.succ (PyStr.rfind_from "/" s (pos + 1) last' - (pos + 1) + 1))%Z by lia.
    rewrite Z2Nat.inj_succ by lia. reflexivity.
  - rewrite orb_false_r, IH. unfold last'.
    destruct (Ascii.eqb c "/").
    + split; [lia|]. replace (pos - pos + 1)%Z with 1%Z by lia. reflexivity.
    + reflexivity.
Qed.

(** [os.path.basename] gives the final segment of the path. *)
Lemma basename_is_last_segment (p : string) : PyStr.basename p = last_segment p.
Proof.
  unfold PyStr.basename, PyStr.rfind.
  pose proof (rfind_from_last_segment p 0 (-1) ltac:(lia)) as H.
  destruct (PyStr.mem_char "/" p) eqn:Hm.
  - destruct H as [_ H]. rewrite <- H. f_equal. f_equal. lia.
  - rewrite H. simpl. symmetry. now apply no_slash_last_segment.
Qed.

Variable p : ascii -> bool.

Lemma all_chars_filter (keep : ascii -> bool) (s : string) :
  PyStr.all_chars p s = true -> PyStr.all_chars p (PyStr.filter keep s) = true.
Proof.
  induction s as [|c s IH]; simpl; [reflexivity|].
  intros H. apply andb_true_iff in H as [Hc Hs].
  destruct (keep c); simpl; [rewrite Hc|]; auto.
Qed.

Lemma all_chars_filtered (s : string) : PyStr.all_chars p (PyStr.filter p s) = true.
Proof.
  induction s as [|c s IH]; simpl; [reflexivity|].
  destruct (p c) eqn:Hc; simpl; [rewrite Hc|]; auto.
Qed.

Lemma all_chars_lstrip (s : string) :
  PyStr.all_chars p s = true -> PyStr.all_chars p (PyStr.lstrip s) = true.
Proof.
  induction s as [|c s IH]; simpl; [reflexivity|].
  intros H. destruct (PyStr.isspace c); [|exact H].
  apply andb_true_iff in H as [_ Hs]. auto.
Qed.

Lemma all_chars_rstrip (s : string) :
  PyStr.all_chars p s = true -> PyStr.all_chars p (PyStr.rstrip s) = true.
Proof.
  induction s as [|c s IH]; simpl; [reflexivity|].
  intros H. apply andb_true_iff in H as [Hc Hs]. specialize (IH Hs).
  destruct (PyStr.rstrip s) as [|c' s'].
  - destruct (PyStr.isspace c); simpl; [reflexivity | now rewrite Hc].
  - cbn [PyStr.all_chars] in *. now rewrite Hc.
Qed.

Lemma all_chars_strip (s : string) :
  PyStr.all_chars p s = true -> PyStr.all_chars p (PyStr.strip s) = true.
Proof. intros H. unfold PyStr.strip. now apply all_chars_rstrip, all_chars_lstrip. Qed.

End StringFacts.

Lemma all_chars_impl (p q : ascii -> bool) (s : string) :
  (forall c, p c = true -> q c = true) ->
  PyStr.all_chars p s = true -> PyStr.all_chars q s = true.
Proof.
  intros Hpq. induction s as [|c s IH]; simpl; [reflexivity|].
  intros H. apply andb_true_iff in H as [Hc Hs]. now rewrite (Hpq c Hc), IH.
Qed.

Lemma all_chars_both (p q : ascii -> bool) (s : string) :
  PyStr.all_chars p s = true -> PyStr.all_chars q s = true ->
  PyStr.all_chars (fun c => p c && q c) s = true.
Proof.
  induction s as [|c s IH]; simpl; [reflexivity|].
  intros Hp Hq. apply andb_true_iff in Hp as [Hpc Hps].
  apply andb_true_iff in Hq as [Hqc Hqs]. now rewrite Hpc, Hqc, IH.
Qed.

(** Among ASCII characters the comprehension keeps [[A-Za-z0-9._-]] only. *)
Lemma kept_ascii_is_spec_char (c : ascii) :
  keep_char c && is_ascii c = true -> spec_char c = true.
Proof.
  destruct c as [[] [] [] [] [] [] [] []]; vm_compute; intro H;
    first [reflexivity | discriminate H].
Qed.

(* ================================================================= *)
(** ** The synthesised file name *)

(** Lines 120-128 compute the name that the specification describes. *)
Lemma derive_filename_named (P : Platform) (path : string) (response_headers : dict) :
  named_from
    (guess_extension P
       (dict_get_default response_headers "Content-Type" "application/octet-stream"))
    path (derive_filename P path response_headers).
Proof.
  unfold named_from, derive_filename. rewrite basename_is_last_segment.
  destruct (last_segment path) as [|c seg] eqn:Hseg; [reflexivity|].
  cbn [PyStr.truthy].
  set (stem := PyStr.split_head "#" (PyStr.split_head "?" (String c seg))).
  destruct (guess_extension P _) as [ext|]; [|reflexivity].
  destruct (PyStr.endswith (PyStr.lower stem) (PyStr.lower ext)) eqn:Hend.
  - left. rewrite andb_false_r. split; [|reflexivity].
    now apply endswith_spec.
  - destruct ext as [|x ext].
    + exfalso. assert (PyStr.endswith (PyStr.lower stem) (PyStr.lower EmptyString) = true).
      { apply endswith_spec. exists (PyStr.lower stem). simpl.
        symmetry. apply append_empty_r. }
      congruence.
    + right. split; [|reflexivity].
      intros Hends. apply endswith_spec in Hends. congruence.
Qed.

Lemma copied_type_is_guessed_type (resp : Response) :
  dict_get_default (copied resp "Content-Type" "content-type")
    "Content-Type" "application/octet-stream"
  = guessed_type resp.
Proof.
  unfold copied, guessed_type, dict_get_default.
  destruct (ci_get (headers resp) "content-type"); reflexivity.
Qed.

Lemma outward_content_type (P : Platform) (url : string) (resp : Response) :
  dict_get (outward_headers P url resp) "Content-Type"
  = ci_get (headers resp) "content-type".
Proof.
  unfold outward_headers, copied.
  destruct (ci_get (headers resp) "content-type");
    destruct (ci_get (headers resp) "content-length"); reflexivity.
Qed.

Lemma outward_content_disposition (P : Platform) (url : string) (resp : Response) :
  dict_get (outward_headers P url resp) "Content-Disposition"
  = Some match ci_get (headers resp) "content-disposition" with
         | Some v => v
         | None => disposition_value P url (copied resp "Content-Type" "content-type")
         end.
Proof.
  unfold outward_headers, copied.
  destruct (ci_get (headers resp) "content-type");
    destruct (ci_get (headers resp) "content-length"); reflexivity.
Qed.

Lemma sanitize_keeps (q : ascii -> bool) (s : string) :
  PyStr.all_chars q s = true -> PyStr.all_chars q (sanitize s) = true.
Proof.
  intros H. unfold sanitize. now apply all_chars_strip, all_chars_filter.
Qed.

Lemma sanitize_kept (s : string) : PyStr.all_chars keep_char (sanitize s) = true.
Proof. unfold sanitize. apply all_chars_strip, all_chars_filtered. Qed.

Lemma or_downloaded_file_keeps (q : ascii -> bool) (s : string) :
  PyStr.all_chars q "downloaded_file" = true ->
  PyStr.all_chars q s = true ->
  PyStr.all_chars q (or_downloaded_file s) = true.
Proof. intros Hd Hs. destruct s; [exact Hd | exact Hs]. Qed.

Lemma or_downloaded_file_nonempty (s : string) : or_downloaded_file s <> EmptyString.
Proof. destruct s; discriminate. Qed.
(** C7.  When the upstream sends no [Content-Disposition], building the
    headers of the streamed response returns, without an event, headers
    whose [Content-Disposition] is [attachment; filename="..."] around
    the sanitised name; the name is that of [named_from]: the final path
    segment of the target URL cut at [?] and [#], with the extension
    guessed from the upstream [Content-Type] appended unless the stem
    already ends with it (letter case aside), or [downloaded_file]
    without a final segment.  When parsing the URL raises, the exception
    is caught and the file name is [downloaded_file].  With these headers
    the handler goes on to construct the [StreamingResponse], and they
    are the headers of every streamed answer. *)
Theorem C7_synthesized_filename (P : Platform) (url : string) (resp : Response) :
  ci_get (headers resp) "content-disposition" = None ->
  exists (hdrs : dict) (d : string),
    stream_headers P url resp = (Ok hdrs, [])
    /\ dict_get hdrs "Content-Disposition" = Some d
    /\ match urlparse_path P url with
       | Ok path =>
           exists name : string,
             named_from (guess_extension P (guessed_type resp)) path name
             /\ d = disposition_of (or_downloaded_file (sanitize name))
       | Raise _ => d = disposition_of "downloaded_file"
       end
    /\ (url <> EmptyString ->
        upstream_call P url = Ok resp ->
        (status_code resp < 400)%Z ->
        declares_json resp = false ->
        download_content_via_proxy P url
        = after [get_event url]
            (StreamingResponse_init (file_streaming_generator resp)
               (status_code resp) hdrs))
    /\ (forall (s : Z) (h : dict) (g : Generator),
          upstream_call P url = Ok resp ->
          fst (route P (Some url)) = http_stream s h g ->
          h = hdrs).
Proof.
  intros Hcd.
  exists (outward_headers P url resp),
    (disposition_value P url (copied resp "Content-Type" "content-type")).
  split; [apply stream_headers_returns|].
  split; [now rewrite outward_content_disposition, Hcd|].
  split; [|split].
  - unfold disposition_value.
    destruct (urlparse_path P url) as [path|e]; [|reflexivity].
    exists (derive_filename P path (copied resp "Content-Type" "content-type")).
    split; [|reflexivity].
    rewrite <- copied_type_is_guessed_type. apply derive_filename_named.
  - intros Hu Hcall Hst Hct. now apply stream_branch_constructs.
  - intros s h g Hcall Hroute.
    destruct (stream_answer_inv P (Some url) s h g Hroute)
      as (url' & resp' & Hq & _ & Hcall' & _ & _ & _ & -> & _).
    injection Hq as <-. rewrite Hcall in Hcall'. now injection Hcall' as <-.
Qed.

(** C7, run: the example of the specification, and a URL that
    [urlparse] refuses. *)
Lemma C7_synthesized_filename_witness :
  (exists hdrs : dict,
     stream_headers
       (Sample.platform (Sample.upstream 200 [("Content-Type", "video/mp4")] "hello"))
       "https://x.test/p/abc.def?x=1"
       {| status_code := 200; headers := [("Content-Type", "video/mp4")];
          body := Sample.bytes "hello"; body_error := None; transfer := []; decoded := false |}
     = (Ok hdrs, [])
     /\ dict_get hdrs "Content-Disposition" = Some (disposition_of "abc.def.mp4"))
  /\ (exists hdrs : dict,
        stream_headers
          (Sample.platform (Sample.upstream 200 [("Content-Type", "video/mp4")] "hello"))
          "https://[x.test/p/abc.def"
          {| status_code := 200; headers := [("Content-Type", "video/mp4")];
             body := Sample.bytes "hello"; body_error := None; transfer := []; decoded := false |}
        = (Ok hdrs, [])
        /\ dict_get hdrs "Content-Disposition"
           = Some (disposition_of "downloaded_file")).
Proof.
  split.
  - destruct (C7_synthesized_filename
                (Sample.platform
                   (Sample.upstream 200 [("Content-Type", "video/mp4")] "hello"))
                "https://x.test/p/abc.def?x=1"
                {| status_code := 200; headers := [("Content-Type", "video/mp4")];
                   body := Sample.bytes "hello"; body_error := None; transfer := []; decoded := false |})
      as (hdrs & d & Hhdrs & _).
    + reflexivity.
    + exists hdrs. split; [exact Hhdrs|].
      injection Hhdrs as <-. reflexivity.
  - destruct (C7_synthesized_filename
                (Sample.platform
                   (Sample.upstream 200 [("Content-Type", "video/mp4")] "hello"))
                "https://[x.test/p/abc.def"
                {| status_code := 200; headers := [("Content-Type", "video/mp4")];
                   body := Sample.bytes "hello"; body_error := None; transfer := []; decoded := false |})
      as (hdrs & d & Hhdrs & Hd & Hname & _).
    + reflexivity.
    + exists hdrs. split; [exact Hhdrs|]. rewrite Hd. f_equal. exact Hname.
Defined.

Example stem_with_its_extension_is_kept :
  fst (synthesize_disposition
         (Sample.platform (Sample.upstream 200 [] EmptyString))
         "https://x.test/p/Clip.MP4?x=1" [("Content-Type", "video/mp4")])
  = Ok (disposition_of "Clip.MP4").
Proof. reflexivity. Qed.

Example unparsable_url_falls_back :
  exists g,
    fst (route (Sample.platform (Sample.upstream 200 [("Content-Type", "video/mp4")] "hello"))
               (Some "https://[x.test/p/abc.def"))
    = http_stream 200 [("Content-Type", "video/mp4");
                       ("Content-Disposition", disposition_of "downloaded_file")] g.
Proof. eexists. reflexivity. Qed.

(* ================================================================= *)
(** ** Sanitising the file name *)

(** C8, as stated, fails: an accented letter of the URL passes
    [str.isalnum] and stays in the file name. *)
Lemma C8_accented_letter_is_kept :
  let url := ("https://x.test/p/caf" ++ String (PyStr.chr 233) EmptyString)%string in
  let name := ("caf" ++ String (PyStr.chr 233) ".mp4")%string in
  (exists g,
     fst (route (Sample.platform
                   (Sample.upstream 200 [("Content-Type", "video/mp4")] "hello"))
                (Some url))
     = http_stream 200 [("Content-Type", "video/mp4");
                        ("Content-Disposition", disposition_of name)] g)
  /\ PyStr.all_chars spec_char name = false.
Proof. split; [eexists|]; reflexivity. Qed.

(** C8, amended.  The synthesised file name is never empty and every
    character of it is alphanumeric in the sense of [str.isalnum], which
    admits letters and digits outside ASCII, or one of [. _ -]; when the
    sanitised name is empty the file name is [downloaded_file]; and when
    the name before sanitising is ASCII every character of the file name
    is in [[A-Za-z0-9._-]]. *)
Theorem C8_sanitized_filename (P : Platform) (url : string) (response_headers : dict) :
  exists filename : string,
    synthesize_disposition P url response_headers = (Ok (disposition_of filename), [])
    /\ filename <> EmptyString
    /\ PyStr.all_chars keep_char filename = true
    /\ forall path : string,
         urlparse_path P url = Ok path ->
         (sanitize (derive_filename P path response_headers) = EmptyString ->
          filename = "downloaded_file")
         /\ (PyStr.all_chars is_ascii (derive_filename P path response_headers) = true ->
             PyStr.all_chars spec_char filename = true).
Proof.
  rewrite synthesize_disposition_returns. unfold disposition_value.
  destruct (urlparse_path P url) as [path|e].
  - set (name := derive_filename P path response_headers).
    exists (or_downloaded_file (sanitize name)).
    assert (Hkept : PyStr.all_chars keep_char (or_downloaded_file (sanitize name)) = true)
      by (apply or_downloaded_file_keeps; [reflexivity | apply sanitize_kept]).
    split; [reflexivity|].
    split; [apply or_downloaded_file_nonempty|].
    split; [exact Hkept|].
    intros path' Hpath. injection Hpath as <-. split.
    + intros Hempty. fold name in Hempty. now rewrite Hempty.
    + intros Hascii. fold name in Hascii.
      apply (all_chars_impl (fun c => keep_char c && is_ascii c));
        [exact kept_ascii_is_spec_char|].
      apply all_chars_both; [exact Hkept|].
      apply or_downloaded_file_keeps; [reflexivity | now apply sanitize_keeps].
  - exists "downloaded_file". repeat split; try discriminate.
Qed.

(* ================================================================= *)
(** ** The type from which the extension is guessed *)

Lemma lower_keeps_semicolon (v : string) :
  PyStr.mem_char ";" v = true -> PyStr.mem_char ";" (PyStr.lower v) = true.
Proof.
  induction v as [|c v IH]; simpl; [discriminate|].
  intros H. apply orb_true_iff in H as [Hc | Hv].
  - apply Ascii.eqb_eq in Hc. subst c. reflexivity.
  - rewrite (IH Hv). apply orb_true_r.
Qed.

Lemma bare_table_has_no_parameters (tbl : list (string * list string)) (k : string) :
  bare_types tbl = true ->
  PyStr.mem_char ";" k = true ->
  assoc_list tbl k = [].
Proof.
  induction tbl as [|[k' exts] tbl IH]; simpl; [reflexivity|].
  intros Hbare Hk. apply andb_true_iff in Hbare as [Hk' Hrest].
  destruct (String.eqb_spec k' k) as [-> | _].
  - rewrite Hk in Hk'. discriminate.
  - now apply IH.
Qed.

(** A type with parameters is not a key of [mimetypes]. *)
Lemma no_guess_with_parameters (P : Platform) (v : string) :
  bare_types (types_map_inv P) = true ->
  PyStr.mem_char ";" v = true ->
  guess_extension P v = None.
Proof.
  intros Hbare Hv. unfold guess_extension, guess_all_extensions.
  now rewrite (bare_table_has_no_parameters _ _ Hbare (lower_keeps_semicolon v Hv)).
Qed.

(** The guess is the first extension that the table lists for the whole
    value, in lower case. *)
Lemma guess_extension_is_first_listed (P : Platform) (v : string) :
  guess_extension P v = hd_error (assoc_list (types_map_inv P) (PyStr.lower v)).
Proof.
  unfold guess_extension, guess_all_extensions.
  destruct (assoc_list _ _); reflexivity.
Qed.

(** C10.  Without an upstream [Content-Disposition], the outward
    [Content-Type] is the upstream's (absent when the upstream has none)
    and the file name is derived with the extension guessed from that
    whole value, the first extension the [mimetypes] table lists for it,
    or from [application/octet-stream] when there is none.  When the
    value carries parameters (a [;]) and the table has bare types only,
    nothing is guessed and the name is the stem (or [downloaded_file]
    without one).  The headers so built are those of every streamed
    answer. *)
Theorem C10_guess_from_whole_content_type
    (P : Platform) (url : string) (resp : Response) (path : string) :
  ci_get (headers resp) "content-disposition" = None ->
  urlparse_path P url = Ok path ->
  exists (hdrs : dict) (name : string),
    stream_headers P url resp = (Ok hdrs, [])
    /\ dict_get hdrs "Content-Type" = ci_get (headers resp) "content-type"
    /\ dict_get hdrs "Content-Disposition"
       = Some (disposition_of (or_downloaded_file (sanitize name)))
    /\ match ci_get (headers resp) "content-type" with
       | Some v =>
           named_from (guess_extension P v) path name
           /\ guess_extension P v
              = hd_error (assoc_list (types_map_inv P) (PyStr.lower v))
           /\ (PyStr.mem_char ";" v = true ->
               bare_types (types_map_inv P) = true ->
               guess_extension P v = None /\ named_from None path name)
       | None =>
           named_from (guess_extension P "application/octet-stream") path name
           /\ guess_extension P "application/octet-stream"
              = hd_error (assoc_list (types_map_inv P) "application/octet-stream")
           /\ dict_get hdrs "Content-Type" = None
       end
    /\ (forall (s : Z) (h : dict) (g : Generator),
          upstream_call P url = Ok resp ->
          fst (route P (Some url)) = http_stream s h g ->
          h = hdrs).
Proof.
  intros Hcd Hpath.
  exists (outward_headers P url resp),
    (derive_filename P path (copied resp "Content-Type" "content-type")).
  split; [apply stream_headers_returns|].
  split; [apply outward_content_type|].
  split; [|split].
  - rewrite outward_content_disposition, Hcd. unfold disposition_value.
    now rewrite Hpath.
  - pose proof (derive_filename_named P path (copied resp "Content-Type" "content-type"))
      as Hnamed.
    rewrite copied_type_is_guessed_type in Hnamed.
    rewrite outward_content_type. unfold guessed_type in Hnamed.
    destruct (ci_get (headers resp) "content-type") as [v|].
    + split; [exact Hnamed|].
      split; [apply guess_extension_is_first_listed|].
      intros Hv Hbare.
      pose proof (no_guess_with_parameters P v Hbare Hv) as Hnone.
      split; [exact Hnone|]. now rewrite Hnone in Hnamed.
    + split; [exact Hnamed|].
      split; [apply guess_extension_is_first_listed | reflexivity].
  - intros s h g Hcall Hroute.
    destruct (stream_answer_inv P (Some url) s h g Hroute)
      as (url' & resp' & Hq & _ & Hcall' & _ & _ & _ & -> & _).
    injection Hq as <-. rewrite Hcall in Hcall'. now injection Hcall' as <-.
Qed.

(** C10, run on one URL: a bare type guesses its extension, a type with a
    parameter guesses nothing although it is copied whole, and without a
    type the guess is that of [application/octet-stream] and no
    [Content-Type] goes out. *)
Lemma C10_guess_from_whole_content_type_witness :
  (exists hdrs : dict,
     stream_headers
       (Sample.platform
          (Sample.upstream 200 [("Content-Type", "video/mp4")] "hello"))
       "https://x.test/p/abc.def?x=1"
       {| status_code := 200; headers := [("Content-Type", "video/mp4")];
          body := Sample.bytes "hello"; body_error := None; transfer := [];
          decoded := false |}
     = (Ok hdrs, [])
     /\ dict_get hdrs "Content-Type" = Some "video/mp4"%string
     /\ dict_get hdrs "Content-Disposition" = Some (disposition_of "abc.def.mp4"))
  /\ (exists hdrs : dict,
     stream_headers
       (Sample.platform
          (Sample.upstream 200 [("Content-Type", "video/mp4; codecs=avc1")] "hello"))
       "https://x.test/p/abc.def?x=1"
       {| status_code := 200; headers := [("Content-Type", "video/mp4; codecs=avc1")];
          body := Sample.bytes "hello"; body_error := None; transfer := [];
          decoded := false |}
     = (Ok hdrs, [])
     /\ dict_get hdrs "Content-Type" = Some "video/mp4; codecs=avc1"%string
     /\ dict_get hdrs "Content-Disposition" = Some (disposition_of "abc.def"))
  /\ (exists hdrs : dict,
     stream_headers
       (Sample.platform
          (Sample.upstream 200 [] "hello"))
       "https://x.test/p/abc.def?x=1"
       {| status_code := 200; headers := [];
          body := Sample.bytes "hello"; body_error := None; transfer := [];
          decoded := false |}
     = (Ok hdrs, [])
     /\ dict_get hdrs "Content-Type" = None
     /\ dict_get hdrs "Content-Disposition" = Some (disposition_of "abc.def.bin")).
Proof.
  split; [|split].
  - destruct (C10_guess_from_whole_content_type
                (Sample.platform
                   (Sample.upstream 200 [("Content-Type", "video/mp4")] "hello"))
                "https://x.test/p/abc.def?x=1"
                {| status_code := 200; headers := [("Content-Type", "video/mp4")];
                   body := Sample.bytes "hello"; body_error := None; transfer := [];
                   decoded := false |}
                "/p/abc.def")
      as (hdrs & name & Hhdrs & Htype & _).
    + reflexivity.
    + reflexivity.
    + exists hdrs. split; [exact Hhdrs|]. split; [exact Htype|].
      injection Hhdrs as <-. reflexivity.
  - destruct (C10_guess_from_whole_content_type
                (Sample.platform
                   (Sample.upstream 200 [("Content-Type", "video/mp4; codecs=avc1")] "hello"))
                "https://x.test/p/abc.def?x=1"
                {| status_code := 200; headers := [("Content-Type", "video/mp4; codecs=avc1")];
                   body := Sample.bytes "hello"; body_error := None; transfer := [];
                   decoded := false |}
                "/p/abc.def")
      as (hdrs & name & Hhdrs & Htype & _).
    + reflexivity.
    + reflexivity.
    + exists hdrs. split; [exact Hhdrs|]. split; [exact Htype|].
      injection Hhdrs as <-. reflexivity.
  - destruct (C10_guess_from_whole_content_type
                (Sample.platform
                   (Sample.upstream 200 [] "hello"))
                "https://x.test/p/abc.def?x=1"
                {| status_code := 200; headers := [];
                   body := Sample.bytes "hello"; body_error := None; transfer := [];
                   decoded := false |}
                "/p/abc.def")
      as (hdrs & name & Hhdrs & Htype & _).
    + reflexivity.
    + reflexivity.
    + exists hdrs. split; [exact Hhdrs|]. split; [exact Htype|].
      injection Hhdrs as <-. reflexivity.
Defined.

Example sample_table_is_bare : bare_types Sample.types_map_inv = true.
Proof. reflexivity. Qed.

Example no_content_type_guesses_octet_stream :
  exists g,
    fst (route (Sample.platform (Sample.upstream 200 [] "hello"))
               (Some "https://x.test/p/abc.def?x=1"))
    = http_stream 200 [("Content-Disposition", disposition_of "abc.def.bin")] g.
Proof. eexists. reflexivity. Qed.

(* ================================================================= *)
(** ** The path of a parsed URL *)

(** On the sample platform the query and the fragment are split off
    before the path is returned, so the final segment is its own stem. *)

Lemma split_head_removes (c : ascii) (s : string) :
  PyStr.mem_char c (PyStr.split_head c s) = false.
Proof.
  induction s as [|a s IH]; simpl; [reflexivity|].
  destruct (Ascii.eqb a c) eqn:Hac; simpl; [reflexivity|].
  now rewrite Hac, IH.
Qed.

Lemma split_head_adds_nothing (c d : ascii) (s : string) :
  PyStr.mem_char d s = false -> PyStr.mem_char d (PyStr.split_head c s) = false.
Proof.
  induction s as [|a s IH]; simpl; [reflexivity|].
  intros H. apply orb_false_iff in H as [Ha Hs].
  destruct (Ascii.eqb a c); simpl; [reflexivity|].
  now rewrite Ha, IH.
Qed.

Lemma split_head_without (c : ascii) (s : string) :
  PyStr.mem_char c s = false -> PyStr.split_head c s = s.
Proof.
  induction s as [|a s IH]; simpl; [reflexivity|].
  intros H. apply orb_false_iff in H as [Ha Hs].
  now rewrite Ha, IH.
Qed.

Lemma mem_char_append (d : ascii) (a b : string) :
  PyStr.mem_char d (a ++ b) = PyStr.mem_char d a || PyStr.mem_char d b.
Proof.
  induction a as [|x a IH]; simpl; [reflexivity|].
  now rewrite IH, orb_assoc.
Qed.

Lemma drop_adds_nothing (d : ascii) (n : nat) :
  forall s, PyStr.mem_char d s = false -> PyStr.mem_char d (PyStr.drop n s) = false.
Proof.
  induction n as [|n IH]; intros [|a s]; simpl; auto.
  intros H. apply orb_false_iff in H as [_ Hs]. auto.
Qed.

Lemma take_adds_nothing (d : ascii) (n : nat) :
  forall s, PyStr.mem_char d s = false -> PyStr.mem_char d (substring 0 n s) = false.
Proof.
  induction n as [|n IH]; intros [|a s]; simpl; auto.
  intros H. apply orb_false_iff in H as [Ha Hs]. now rewrite Ha, IH.
Qed.

Lemma strip_params_adds_nothing (d : ascii) (s : string) :
  PyStr.mem_char d s = false -> PyStr.mem_char d (Sample.strip_params s) = false.
Proof.
  intros H. unfold Sample.strip_params.
  destruct (PyStr.mem_char "/" s).
  - destruct (PyStr.mem_char ";" _); [|exact H].
    rewrite mem_char_append, take_adds_nothing by exact H.
    now apply split_head_adds_nothing, drop_adds_nothing.
  - now apply split_head_adds_nothing.
Qed.

Lemma sample_path_has_no_query_or_fragment (url path : string) :
  Sample.urlparse_path url = Ok path ->
  PyStr.mem_char "?" path = false /\ PyStr.mem_char "#" path = false.
Proof.
  unfold Sample.urlparse_path.
  destruct (Sample.split_scheme _) as [scheme rest].
  assert (Hcut : forall u,
             PyStr.mem_char "?" (PyStr.split_head "?" (PyStr.split_head "#" u)) = false
             /\ PyStr.mem_char "#" (PyStr.split_head "?" (PyStr.split_head "#" u)) = false).
  { intros u. split; [apply split_head_removes|].
    apply split_head_adds_nothing, split_head_removes. }
  assert (Hafter : forall u p,
             (if existsb (String.eqb scheme) Sample.uses_params
                 && PyStr.mem_char ";" (PyStr.split_head "?" (PyStr.split_head "#" u))
              then Ok (Sample.strip_params (PyStr.split_head "?" (PyStr.split_head "#" u)))
              else Ok (PyStr.split_head "?" (PyStr.split_head "#" u))) = Ok p ->
             PyStr.mem_char "?" p = false /\ PyStr.mem_char "#" p = false).
  { intros u p. destruct (Hcut u) as [Hq Hf].
    destruct (_ && _); intros Heq; injection Heq as <-.
    - split; now apply strip_params_adds_nothing.
    - now split. }
  destruct (prefix "//" rest).
  - destruct (xorb _ _); [discriminate|]. apply Hafter.
  - apply Hafter.
Qed.

Lemma last_segment_adds_nothing (d : ascii) (s : string) :
  PyStr.mem_char d s = false -> PyStr.mem_char d (last_segment s) = false.
Proof.
  intros H. rewrite <- basename_is_last_segment. unfold PyStr.basename.
  now apply drop_adds_nothing.
Qed.

(** There are no remnants to strip: the stem is the final segment. *)
Lemma sample_stem_is_last_segment (url path : string) :
  Sample.urlparse_path url = Ok path ->
  PyStr.split_head "#" (PyStr.split_head "?" (last_segment path)) = last_segment path.
Proof.
  intros Hpath.
  destruct (sample_path_has_no_query_or_fragment url path Hpath) as [Hq Hf].
  rewrite (split_head_without "?") by now apply last_segment_adds_nothing.
  apply split_head_without. now apply last_segment_adds_nothing.
Qed.

(* ================================================================= *)
(** ** Further properties of the fetch and of the dispatch *)

(** X1.  [_fetch_from_tele_social_sync] makes one request and tells its
    outcome by the tag of its result: [error_upstream] is an answer with
    status 400 or more, [success] an answer below 400, [exception] an
    exception of [requests] with a detail that contains the target URL;
    the only exceptions it lets through are those that are not a
    [RequestException]. *)
Theorem X1_fetch_helper_outcomes
    (P : Platform) (target_url api_base_url : string) (params : list (string * string)) :
  let run := _fetch_from_tele_social_sync P target_url api_base_url params in
  let answer := requests_get P api_base_url params 90 true in
  snd run = [EvGet api_base_url params 90 true]
  /\ (forall r, fst run = Ok (error_upstream r) ->
        answer = Ok r /\ (400 <= status_code r)%Z)
  /\ (forall r, fst run = Ok (success r) ->
        answer = Ok r /\ (status_code r < 400)%Z)
  /\ (forall ty d, fst run = Ok (exception ty d) ->
        exists e, answer = Raise e
                  /\ isinstance e RequestException = true
                  /\ In ty ["Timeout"; "ConnectionError"; "RequestException"]
                  /\ names_url target_url d)
  /\ (forall e, fst run = Raise e ->
        answer = Raise e /\ isinstance e RequestException = false).
Proof.
  unfold _fetch_from_tele_social_sync.
  destruct (requests_get P api_base_url params 90 true) as [r|e]; simpl.
  - destruct (status_code r >=? 400)%Z eqn:Hst; simpl;
      (split; [reflexivity|]); repeat split; intros; try discriminate.
    + congruence.
    + injection H as <-. now apply Z.geb_le.
    + congruence.
    + injection H as <-. rewrite Z.geb_leb in Hst. now apply Z.leb_gt.
  - destruct (isinstance e Timeout) eqn:Ht;
      [| destruct (isinstance e ConnectionError) eqn:Hc;
         [| destruct (isinstance e RequestException) eqn:Hr]];
      simpl; (split; [reflexivity|]); repeat split; intros; try discriminate.
    + injection H as <- <-. exists e. repeat split.
      * now apply timeout_is_request_exception.
      * simpl. auto.
      * exists "Request to upstream API timed out for URL: ", EmptyString.
        now rewrite append_empty_r.
    + injection H as <- <-. exists e. repeat split.
      * now apply connection_error_is_request_exception.
      * simpl. auto.
      * exists "Could not connect to upstream API for URL: ", EmptyString.
        now rewrite append_empty_r.
    + injection H as <- <-. exists e. repeat split.
      * exact Hr.
      * simpl. auto.
      * exists "Upstream API request error for ", (": " ++ str e)%string.
        reflexivity.
    + congruence.
    + injection H as <-. exact Hr.
Qed.

(** X2.  An exception of the outbound request that is not a
    [RequestException] is not translated: the handler raises it
    unchanged after the one request, and the client gets the server's
    plain 500 without a JSON detail. *)
Theorem X2_foreign_exception_escapes
    (P : Platform) (url : string) (c : exn_class) (message : string) :
  url <> EmptyString ->
  upstream_call P url = Raise (Error c message) ->
  issubclass c RequestException = false ->
  download_content_via_proxy P url = (Raise (Error c message), [get_event url])
  /\ route P (Some url) = (http_internal_server_error, [get_event url]).
Proof.
  intros Hu Hcall Hc.
  assert (Hrun : download_content_via_proxy P url
                 = (Raise (Error c message), [get_event url])).
  { apply handler_fetch_raises; [exact Hu|].
    now apply (fetch_foreign_exception P url (Error c message)). }
  split; [exact Hrun|]. unfold route. now rewrite Hrun.
Qed.

Lemma X2_foreign_exception_escapes_witness :
  download_content_via_proxy
    (Sample.platform (Raise (Error ValueError "Invalid URL")))
    "https://www.instagram.com/p/Cxyz1234/"
  = (Raise (Error ValueError "Invalid URL"),
     [get_event "https://www.instagram.com/p/Cxyz1234/"])
  /\ route (Sample.platform (Raise (Error ValueError "Invalid URL")))
           (Some "https://www.instagram.com/p/Cxyz1234/")
     = (http_internal_server_error,
        [get_event "https://www.instagram.com/p/Cxyz1234/"]).
Proof.
  apply (X2_foreign_exception_escapes
           (Sample.platform (Raise (Error ValueError "Invalid URL")))
           "https://www.instagram.com/p/Cxyz1234/" ValueError "Invalid URL").
  - apply String.eqb_neq. reflexivity.
  - reflexivity.
  - reflexivity.
Defined.

Lemma gets_app (t t' : list event) : gets (t ++ t') = gets t + gets t'.
Proof. unfold gets. now rewrite List.filter_app, List.length_app. Qed.

Lemma prints_app (t t' : list event) : prints (t ++ t') = prints t + prints t'.
Proof. unfold prints. now rewrite List.filter_app, List.length_app. Qed.

(** The generator only reads chunks and closes. *)
Lemma anext_events (g : Generator) :
  Forall (fun ev => is_read ev || is_close ev = true) (snd (gen_anext g)).
Proof.
  unfold gen_anext, gen_resume, iter_content_next.
  destruct (gen_state_of g) as [|u|]; simpl; [| |constructor].
  - destruct (body (gen_resp g)); [destruct (body_error (gen_resp g))|];
      simpl; repeat constructor.
  - destruct u; [destruct (body_error (gen_resp g))|]; simpl; repeat constructor.
Qed.

Lemma aclose_events (g : Generator) :
  Forall (fun ev => is_read ev || is_close ev = true) (snd (gen_aclose g)).
Proof.
  unfold gen_aclose. destruct (gen_state_of g); simpl; repeat constructor.
Qed.

Lemma consume_events (acts : list action) :
  forall g : Generator,
    Forall (fun ev => is_read ev || is_close ev = true) (snd (consume acts g)).
Proof.
  induction acts as [|a acts IH]; intros g; [constructor|].
  destruct a; cbn [consume].
  - pose proof (anext_events g) as Hstep.
    destruct (gen_anext g) as [[r g'] t]. cbn [snd] in Hstep.
    destruct r; cbn [snd]; try exact Hstep.
    specialize (IH g'). destruct (consume acts g') as [[chunks g''] t'].
    cbn [snd] in *. apply Forall_app. now split.
  - pose proof (aclose_events g) as Hstep.
    destruct (gen_aclose g) as [g' t]. exact Hstep.
Qed.

Lemma reads_and_closes_are_no_gets (t : list event) :
  Forall (fun ev => is_read ev || is_close ev = true) t -> gets t = 0.
Proof.
  induction 1 as [|ev t Hev _ IH]; [reflexivity|].
  unfold gets in *. simpl. destruct ev; simpl in *; try discriminate; exact IH.
Qed.

(** X3.  On every path of a request with a non-empty [url], whatever the
    upstream does and whatever the server does with a streamed body, the
    first event is the outbound request with the URL as given, and no
    other outbound request follows. *)
Theorem X3_one_outbound_request (P : Platform) (url : string) (acts : list action) :
  url <> EmptyString ->
  exists t : list event,
    session P (Some url) acts = get_event url :: t /\ gets t = 0.
Proof.
  intros Hu. unfold session, route. rewrite (handler_is_table P url Hu).
  unfold handler_table.
  destruct (upstream_call P url) as [resp|e].
  - destruct (400 <=? status_code resp)%Z.
    + destruct (error_branch_table_run P url resp)
        as [(v & s & ->) | (s & d & line & ->)];
        simpl; eexists; split; reflexivity.
    + destruct (declares_json resp).
      * destruct (json_branch_table_run P url resp)
          as [(v & s & ->) | (s & d & line & ->)];
          simpl; eexists; split; reflexivity.
      * simpl. eexists. split; [reflexivity|].
        apply reads_and_closes_are_no_gets, consume_events.
  - unfold transport_failure.
    destruct (isinstance e Timeout);
      [| destruct (isinstance e ConnectionError);
         [| destruct (isinstance e RequestException)]];
      try (simpl; eexists; split; reflexivity).
    destruct e; simpl; eexists; split; reflexivity.
Qed.

Lemma X3_one_outbound_request_witness :
  exists t : list event,
    session (Sample.platform
               (Sample.upstream 200 [("Content-Type", "video/mp4")] "hello"))
            (Some "https://x.test/p/abc.def?x=1") [Next; Next; Abandon]
    = get_event "https://x.test/p/abc.def?x=1" :: t
    /\ gets t = 0.
Proof.
  apply (X3_one_outbound_request
           (Sample.platform
              (Sample.upstream 200 [("Content-Type", "video/mp4")] "hello"))
           "https://x.test/p/abc.def?x=1" [Next; Next; Abandon]).
  apply String.eqb_neq. reflexivity.
Defined.

(** X4.  A streamed response is only ever the answer to an upstream
    response with a status below 400 that does not declare JSON: its
    status is the upstream's, its body iterator is the generator over
    that response, and nothing of the body has been read yet. *)
Theorem X4_stream_only_for_success_without_json
    (P : Platform) (q : option string) (s : Z) (h : dict) (g : Generator) :
  fst (route P q) = http_stream s h g ->
  exists (url : string) (resp : Response),
    q = Some url
    /\ upstream_call P url = Ok resp
    /\ s = status_code resp
    /\ (s < 400)%Z
    /\ declares_json resp = false
    /\ g = file_streaming_generator resp
    /\ snd (route P q) = [get_event url].
Proof.
  intros Hroute.
  destruct (stream_answer_inv P q s h g Hroute)
    as (url & resp & Hq & _ & Hcall & Hst & Hct & Hs & _ & Hg & Htrace).
  exists url, resp. subst s. repeat split; assumption.
Qed.

Lemma X4_stream_only_for_success_without_json_witness :
  exists (url : string) (resp : Response),
    Some "https://x.test/p/abc.def?x=1" = Some url
    /\ upstream_call
         (Sample.platform
            (Sample.upstream 206 [("Content-Type", "video/mp4")] "hello")) url
       = Ok resp
    /\ 206%Z = status_code resp
    /\ (206 < 400)%Z
    /\ declares_json resp = false
    /\ file_streaming_generator
         {| status_code := 206; headers := [("Content-Type", "video/mp4")];
            body := Sample.bytes "hello"; body_error := None; transfer := []; decoded := false |}
       = file_streaming_generator resp
    /\ snd (route (Sample.platform
                     (Sample.upstream 206 [("Content-Type", "video/mp4")] "hello"))
                  (Some "https://x.test/p/abc.def?x=1"))
       = [get_event url].
Proof.
  apply (X4_stream_only_for_success_without_json
           (Sample.platform
              (Sample.upstream 206 [("Content-Type", "video/mp4")] "hello"))
           (Some "https://x.test/p/abc.def?x=1") 206
           [("Content-Type", "video/mp4");
            ("Content-Disposition", disposition_of "abc.def.mp4")]).
  reflexivity.
Defined.

(** X5.  When the upstream answers and the handler returns a response,
    the outward status is the upstream's and nothing is logged.  In the
    error branch and in the JSON branch, if the handler raises while it
    reads the body, parses it or builds the answer, exactly one line is
    logged and the status is 502 (error branch, or malformed JSON) or
    500. *)
Theorem X5_status_mirrored_or_failure_logged
    (P : Platform) (url : string) (resp : Response) :
  url <> EmptyString ->
  upstream_call P url = Ok resp ->
  match fst (download_content_via_proxy P url) with
  | Ok _ =>
      http_status (fst (route P (Some url))) = status_code resp
      /\ prints (snd (route P (Some url))) = 0
  | Raise _ =>
      (400 <= status_code resp)%Z \/ declares_json resp = true ->
      (http_status (fst (route P (Some url))) = 502%Z
       \/ (http_status (fst (route P (Some url))) = 500%Z
           /\ (status_code resp < 400)%Z))
      /\ prints (snd (route P (Some url))) = 1
  end.
Proof.
  intros Hu Hcall. unfold route. rewrite (handler_is_table P url Hu).
  unfold handler_table. rewrite Hcall.
  destruct (400 <=? status_code resp)%Z eqn:Hst.
  - table_rows; simpl; auto.
  - apply Z.leb_gt in Hst. destruct (declares_json resp).
    + table_rows; simpl; auto.
    + simpl. auto.
Qed.

Lemma X5_status_mirrored_or_failure_logged_witness :
  (http_status
     (fst (route (Sample.platform
                    (Sample.upstream 200 [("Content-Type", "application/json")]
                       "<html>oops</html>"))
                 (Some "https://www.instagram.com/p/Cxyz1234/"))) = 502%Z
   \/ (http_status
         (fst (route (Sample.platform
                        (Sample.upstream 200 [("Content-Type", "application/json")]
                           "<html>oops</html>"))
                     (Some "https://www.instagram.com/p/Cxyz1234/"))) = 500%Z
       /\ (200 < 400)%Z))
  /\ prints
       (snd (route (Sample.platform
                      (Sample.upstream 200 [("Content-Type", "application/json")]
                         "<html>oops</html>"))
                   (Some "https://www.instagram.com/p/Cxyz1234/"))) = 1.
Proof.
  apply (X5_status_mirrored_or_failure_logged
           (Sample.platform
              (Sample.upstream 200 [("Content-Type", "application/json")]
                 "<html>oops</html>"))
           "https://www.instagram.com/p/Cxyz1234/"
           {| status_code := 200; headers := [("Content-Type", "application/json")];
              body := Sample.bytes "<html>oops</html>"; body_error := None;
              transfer := []; decoded := false |}).
  - apply String.eqb_neq. reflexivity.
  - reflexivity.
  - right. reflexivity.
Defined.

(** X6.  In the error branch and in the JSON branch the run is: the
    outbound request, one read of the whole body, one [close()], and then
    at most one logged line.  The connection is closed before the answer
    is built, also when reading or parsing raises, and no chunk is ever
    read from the stream. *)
Theorem X6_buffered_read_then_close
    (P : Platform) (url : string) (resp : Response) :
  url <> EmptyString ->
  upstream_call P url = Ok resp ->
  (400 <= status_code resp)%Z
  \/ ((status_code resp < 400)%Z /\ declares_json resp = true) ->
  exists tail : list event,
    snd (route P (Some url)) = get_event url :: EvReadBody :: EvClose :: tail
    /\ (tail = [] \/ exists line, tail = [EvPrint line]).
Proof.
  intros Hu Hcall Hbranch. unfold route.
  assert (Hrun : buffered_run url (download_content_via_proxy P url)).
  { destruct Hbranch as [Hst | [Hst Hct]].
    - rewrite (error_branch P url resp Hu Hcall Hst). apply error_branch_table_run.
    - rewrite (json_branch P url resp Hu Hcall Hst Hct). apply json_branch_table_run. }
  destruct Hrun as [(v & s & ->) | (s & d & line & ->)];
    simpl; eexists; split; eauto.
Qed.

Lemma X6_buffered_read_then_close_witness :
  exists tail : list event,
    snd (route (Sample.platform
                  (Ok {| status_code := 503; headers := [];
                         body := [];
                         body_error := Some (Error ChunkedEncodingError "Connection broken");
                         transfer := []; decoded := false |}))
               (Some "https://www.instagram.com/p/Cxyz1234/"))
    = get_event "https://www.instagram.com/p/Cxyz1234/" :: EvReadBody :: EvClose :: tail
    /\ (tail = [] \/ exists line, tail = [EvPrint line]).
Proof.
  apply (X6_buffered_read_then_close
           (Sample.platform
              (Ok {| status_code := 503; headers := [];
                     body := [];
                     body_error := Some (Error ChunkedEncodingError "Connection broken");
                         transfer := []; decoded := false |}))
           "https://www.instagram.com/p/Cxyz1234/"
           {| status_code := 503; headers := [];
              body := [];
              body_error := Some (Error ChunkedEncodingError "Connection broken");
                         transfer := []; decoded := false |}).
  - apply String.eqb_neq. reflexivity.
  - reflexivity.
  - left. simpl. lia.
Defined.

(* ================================================================= *)
(** ** The headers of a streamed response *)

(** X7.  When the upstream sends a [Content-Disposition], a streamed
    answer carries that value unchanged and nothing is synthesised: the
    headers are the copied [Content-Type], this value and the copied
    [Content-Length], whatever the target URL is and whether or not it
    can be parsed. *)
Theorem X7_upstream_disposition_is_passed_on
    (P : Platform) (url : string) (resp : Response) (v : string) :
  url <> EmptyString ->
  upstream_call P url = Ok resp ->
  (status_code resp < 400)%Z ->
  declares_json resp = false ->
  ci_get (headers resp) "content-disposition" = Some v ->
  route P (Some url) =
    (http_stream (status_code resp)
       (copied resp "Content-Type" "content-type"
        ++ [("Content-Disposition", v)]
        ++ copied resp "Content-Length" "content-length")
       (file_streaming_generator resp),
     [get_event url]).
Proof.
  intros Hu Hcall Hst Hct Hcd. unfold route.
  rewrite (stream_branch P url resp Hu Hcall Hst Hct).
  unfold outward_headers. now rewrite Hcd.
Qed.

Lemma X7_upstream_disposition_is_passed_on_witness :
  route (Sample.platform
           (Sample.upstream 200
              [("Content-Type", "video/mp4");
               ("content-disposition", "inline; filename=clip.mp4")] "hello"))
        (Some "https://[x.test/p/abc.def")
  = (http_stream 200
       [("Content-Type", "video/mp4");
        ("Content-Disposition", "inline; filename=clip.mp4")]
       (file_streaming_generator
          {| status_code := 200;
             headers := [("Content-Type", "video/mp4");
                         ("content-disposition", "inline; filename=clip.mp4")];
             body := Sample.bytes "hello"; body_error := None; transfer := []; decoded := false |}),
     [get_event "https://[x.test/p/abc.def"]).
Proof.
  apply (X7_upstream_disposition_is_passed_on
           (Sample.platform
              (Sample.upstream 200
                 [("Content-Type", "video/mp4");
                  ("content-disposition", "inline; filename=clip.mp4")] "hello"))
           "https://[x.test/p/abc.def"
           {| status_code := 200;
              headers := [("Content-Type", "video/mp4");
                          ("content-disposition", "inline; filename=clip.mp4")];
              body := Sample.bytes "hello"; body_error := None; transfer := []; decoded := false |}
           "inline; filename=clip.mp4").
  - apply String.eqb_neq. reflexivity.
  - reflexivity.
  - simpl. lia.
  - reflexivity.
  - reflexivity.
Defined.

(** X8.  A streamed answer carries a [Content-Disposition] always, and
    no header under any other name than [Content-Type],
    [Content-Disposition] and [Content-Length], each at most once: no
    other upstream header is passed on. *)
Theorem X8_stream_headers_are_the_three
    (P : Platform) (q : option string) (s : Z) (hdrs : dict) (g : Generator) :
  fst (route P q) = http_stream s hdrs g ->
  In "Content-Disposition" (map fst hdrs)
  /\ NoDup (map fst hdrs)
  /\ (forall name : string,
        dict_get hdrs name <> None -> In name stream_header_names).
Proof.
  intros Hroute.
  destruct (stream_answer_inv P q s hdrs g Hroute)
    as (url & resp & _ & _ & _ & _ & _ & _ & -> & _).
  unfold outward_headers, copied, stream_header_names.
  destruct (ci_get (headers resp) "content-type") as [ct|];
    destruct (ci_get (headers resp) "content-length") as [cl|];
    cbn [app map fst]; (split; [simpl; tauto|]);
    (split;
     [repeat (apply NoDup_cons; [simpl; intuition discriminate|]); apply NoDup_nil|]);
    intros name; cbn [dict_get];
    repeat match goal with
           | |- context [String.eqb ?k name] =>
               let E := fresh "E" in
               destruct (String.eqb k name) eqn:E;
               [apply String.eqb_eq in E; subst name; intros _; simpl; tauto|]
           end;
    intros Hname; congruence.
Qed.

Lemma X8_stream_headers_are_the_three_witness :
  let hdrs := [("Content-Type", "video/mp4");
               ("Content-Disposition", disposition_of "abc.def.mp4");
               ("Content-Length", "5")]%string in
  In "Content-Disposition"%string (map fst hdrs)
  /\ NoDup (map fst hdrs)
  /\ (forall name : string,
        dict_get hdrs name <> None -> In name stream_header_names).
Proof.
  apply (X8_stream_headers_are_the_three
           (Sample.platform
              (Sample.upstream 200
                 [("Content-Type", "video/mp4"); ("Set-Cookie", "session=1");
                  ("Content-Encoding", "identity"); ("Content-Length", "5")]
                 "hello"))
           (Some "https://x.test/p/abc.def?x=1") 200
           [("Content-Type", "video/mp4");
            ("Content-Disposition", disposition_of "abc.def.mp4");
            ("Content-Length", "5")]
           (file_streaming_generator
              {| status_code := 200;
                 headers := [("Content-Type", "video/mp4"); ("Set-Cookie", "session=1");
                             ("Content-Encoding", "identity"); ("Content-Length", "5")];
                 body := Sample.bytes "hello"; body_error := None; transfer := []; decoded := false |})).
  reflexivity.
Defined.

(* ================================================================= *)
(** ** The generator under arbitrary use *)

Lemma resume_at_the_end (g : Generator) :
  gen_resume g [] =
    (last_step (gen_resp g), gen_at g GenClosed,
     [EvReadChunk (gen_chunk_size g); EvClose]).
Proof.
  unfold gen_resume, iter_content_next, last_step. simpl.
  destruct (body_error (gen_resp g)); reflexivity.
Qed.

(** A finished generator answers [StopAsyncIteration] and does nothing. *)
Lemma drive_finished (acts : list action) :
  forall g : Generator,
    gen_state_of g = GenClosed ->
    snd (drive acts g) = [] /\ snd (fst (drive acts g)) = g.
Proof.
  induction acts as [|a acts IH]; intros g Hst; [split; reflexivity|].
  destruct a; cbn [drive]; unfold gen_anext, gen_aclose; rewrite Hst;
    destruct (IH g Hst) as [Ht Hg];
    destruct (drive acts g) as [[rs g'] t]; cbn [fst snd] in *;
    subst; split; reflexivity.
Qed.





Lemma drive_suspended (acts : list action) :
  forall (g : Generator) (u : list byte),
    gen_state_of g = GenSuspended u ->
    (gen_state_of (snd (fst (drive acts g))) = GenClosed
     /\ closes (snd (drive acts g)) = 1)
    \/ ((exists u', gen_state_of (snd (fst (drive acts g))) = GenSuspended u')
        /\ closes (snd (drive acts g)) = 0).
Proof.
  induction acts as [|a acts IH]; intros g u Hst.
  - right. simpl. split; [eauto | reflexivity].
  - destruct a; cbn [drive].
    + rewrite (anext_resumes g u (or_introl Hst)).
      destruct u as [|b u].
      * rewrite resume_at_the_end.
        destruct (drive_finished acts (gen_at g GenClosed) eq_refl) as [Ht Hg].
        destruct (drive acts (gen_at g GenClosed)) as [[rs g'] t].
        cbn [fst snd] in *. subst. left. split; reflexivity.
      * rewrite resume_chunk. cbv zeta. set (g1 := gen_at g _).
        specialize (IH g1 _ eq_refl).
        destruct (drive acts g1) as [[rs g'] t]. cbn [fst snd] in *.
        rewrite closes_app. exact IH.
    + unfold gen_aclose. rewrite Hst.
      destruct (drive_finished acts (gen_at g GenClosed) eq_refl) as [Ht Hg].
      destruct (drive acts (gen_at g GenClosed)) as [[rs g'] t].
      cbn [fst snd] in *. subst. left. split; reflexivity.
Qed.

(** X10.  Whatever sequence of [__anext__] and [aclose()] calls is made
    on the generator of a streamed response, [close()] is called on the
    upstream response at most once, and only when the generator has
    finished: never while it can still yield. *)
Theorem X10_closed_at_most_once (resp : Response) (acts : list action) :
  closes (snd (drive acts (file_streaming_generator resp))) <= 1
  /\ (closes (snd (drive acts (file_streaming_generator resp))) = 1 ->
      gen_state_of (snd (fst (drive acts (file_streaming_generator resp)))) = GenClosed).
Proof.
  set (g := file_streaming_generator resp).
  destruct acts as [|a acts].
  - cbn [drive snd]. unfold closes. simpl. split; [lia | discriminate].
  - destruct a; cbn [drive].
    + rewrite (anext_resumes g (body resp) (or_intror (conj eq_refl eq_refl))).
      destruct (body resp) as [|b u].
      * rewrite resume_at_the_end.
        destruct (drive_finished acts (gen_at g GenClosed) eq_refl) as [Ht Hg].
        destruct (drive acts (gen_at g GenClosed)) as [[rs g'] t].
        cbn [fst snd] in *. subst. split; [|reflexivity].
        rewrite closes_app. unfold closes. simpl. lia.
      * rewrite resume_chunk. cbv zeta. set (g1 := gen_at g _).
        pose proof (drive_suspended acts g1 _ eq_refl) as Hrest.
        destruct (drive acts g1) as [[rs g'] t]. cbn [fst snd] in *.
        rewrite closes_app.
        change (closes [EvReadChunk (gen_chunk_size g)]) with 0.
        destruct Hrest as [[Hclosed Hc] | [_ Hc]]; rewrite Hc; split;
          simpl; auto; try lia; discriminate.
    + unfold gen_aclose. simpl gen_state_of.
      destruct (drive_finished acts (gen_at g GenClosed) eq_refl) as [Ht Hg].
      destruct (drive acts (gen_at g GenClosed)) as [[rs g'] t].
      cbn [fst snd] in *. subst. unfold closes. simpl.
      split; [lia | discriminate].
Qed.

(* ================================================================= *)
(** ** Further properties of the file name *)

Lemma space_is_not_kept (c : ascii) : PyStr.isspace c = true -> keep_char c = false.
Proof.
  destruct c as [[] [] [] [] [] [] [] []]; vm_compute; intro H;
    first [reflexivity | discriminate H].
Qed.

Lemma kept_is_header_safe (c : ascii) : keep_char c = true -> header_safe c = true.
Proof.
  destruct c as [[] [] [] [] [] [] [] []]; vm_compute; intro H;
    first [reflexivity | discriminate H].
Qed.

Lemma lstrip_without_space (s : string) :
  PyStr.all_chars (fun c => negb (PyStr.isspace c)) s = true -> PyStr.lstrip s = s.
Proof.
  destruct s as [|a s]; simpl; [reflexivity|].
  intros H. apply andb_true_iff in H as [Ha _].
  apply negb_true_iff in Ha. now rewrite Ha.
Qed.

Lemma rstrip_without_space (s : string) :
  PyStr.all_chars (fun c => negb (PyStr.isspace c)) s = true -> PyStr.rstrip s = s.
Proof.
  induction s as [|a s IH]; simpl; [reflexivity|].
  intros H. apply andb_true_iff in H as [Ha Hs].
  apply negb_true_iff in Ha. rewrite (IH Hs), Ha. now destruct s.
Qed.

Lemma filter_of_kept (p : ascii -> bool) (s : string) :
  PyStr.all_chars p s = true -> PyStr.filter p s = s.
Proof.
  induction s as [|a s IH]; simpl; [reflexivity|].
  intros H. apply andb_true_iff in H as [Ha Hs]. now rewrite Ha, IH.
Qed.

Lemma filtered_has_no_space (s : string) :
  PyStr.all_chars (fun c => negb (PyStr.isspace c)) (PyStr.filter keep_char s) = true.
Proof.
  apply (all_chars_impl keep_char); [|apply all_chars_filtered].
  intros c Hc. destruct (PyStr.isspace c) eqn:Hs; [|reflexivity].
  apply space_is_not_kept in Hs. congruence.
Qed.

Lemma sanitize_is_filter (s : string) : sanitize s = PyStr.filter keep_char s.
Proof.
  unfold sanitize, PyStr.strip.
  rewrite (lstrip_without_space _ (filtered_has_no_space s)).
  apply rstrip_without_space, filtered_has_no_space.
Qed.

(** X11.  The [strip()] at the end of line 129 never removes anything:
    no blank passes the filter, so the sanitised name is the filtered
    name.  Sanitising leaves a name of kept characters as it is, and
    sanitising twice is sanitising once. *)
Theorem X11_strip_changes_nothing (filename : string) :
  sanitize filename = PyStr.filter keep_char filename
  /\ sanitize (sanitize filename) = sanitize filename
  /\ (PyStr.all_chars keep_char filename = true -> sanitize filename = filename).
Proof.
  split; [apply sanitize_is_filter|]. split.
  - rewrite !sanitize_is_filter. apply filter_of_kept, all_chars_filtered.
  - intros Hkept. rewrite sanitize_is_filter. now apply filter_of_kept.
Qed.

(** X12.  Whatever the URL, the upstream type and the platform, the
    synthesised header is [attachment; filename="..."] around a name
    without a control character, double quote, backslash, slash,
    semicolon or blank: the target URL cannot break the quoted value or
    add a header parameter. *)
Theorem X12_filename_cannot_break_the_header
    (P : Platform) (url : string) (response_headers : dict) :
  exists filename : string,
    synthesize_disposition P url response_headers = (Ok (disposition_of filename), [])
    /\ PyStr.all_chars header_safe filename = true.
Proof.
  rewrite synthesize_disposition_returns. unfold disposition_value.
  destruct (urlparse_path P url) as [path|e].
  - eexists. split; [reflexivity|].
    apply (all_chars_impl keep_char); [exact kept_is_header_safe|].
    apply or_downloaded_file_keeps; [reflexivity | apply sanitize_kept].
  - exists "downloaded_file". split; reflexivity.
Qed.

Lemma last_segment_after_slash (front : string) :
  last_segment (front ++ "/") = EmptyString.
Proof.
  induction front as [|c front IH]; [reflexivity|].
  cbn [append last_segment].
  now rewrite mem_char_append, orb_true_r.
Qed.

(** X13.  When the path of the target URL is empty or ends with a slash
    there is no final segment, and the file name is [downloaded_file]
    with no extension, whatever the upstream [Content-Type]. *)
Theorem X13_no_final_segment_no_extension
    (P : Platform) (url path : string) (response_headers : dict) :
  urlparse_path P url = Ok path ->
  path = EmptyString \/ PyStr.endswith path "/" = true ->
  derive_filename P path response_headers = "downloaded_file"
  /\ synthesize_disposition P url response_headers
     = (Ok (disposition_of "downloaded_file"), []).
Proof.
  intros Hpath Hend.
  assert (Hseg : last_segment path = EmptyString).
  { destruct Hend as [-> | Hend]; [reflexivity|].
    apply endswith_spec in Hend as [front ->]. apply last_segment_after_slash. }
  assert (Hname : derive_filename P path response_headers = "downloaded_file").
  { unfold derive_filename. now rewrite basename_is_last_segment, Hseg. }
  split; [exact Hname|].
  rewrite synthesize_disposition_returns. unfold disposition_value.
  now rewrite Hpath, Hname.
Qed.

Lemma X13_no_final_segment_no_extension_witness :
  derive_filename
    (Sample.platform (Sample.upstream 200 [] EmptyString))
    "/p/Cxyz1234/" [("Content-Type", "video/mp4")]
  = "downloaded_file"
  /\ synthesize_disposition
       (Sample.platform (Sample.upstream 200 [] EmptyString))
       "https://www.instagram.com/p/Cxyz1234/" [("Content-Type", "video/mp4")]
     = (Ok (disposition_of "downloaded_file"), []).
Proof.
  apply (X13_no_final_segment_no_extension
           (Sample.platform (Sample.upstream 200 [] EmptyString))
           "https://www.instagram.com/p/Cxyz1234/" "/p/Cxyz1234/"
           [("Content-Type", "video/mp4")]).
  - reflexivity.
  - right. reflexivity.
Defined.

(* ================================================================= *)
(** ** The test for a JSON body *)

Lemma prefix_spec (a : string) :
  forall s, prefix a s = true <-> exists tail, s = (a ++ tail)%string.
Proof.
  induction a as [|x a IH]; intros s.
  - destruct s; simpl; split; eauto.
  - destruct s as [|y s]; simpl.
    + split; [discriminate | intros [tail H]; discriminate H].
    + destruct (ascii_dec x y) as [-> | Hxy].
      * rewrite IH. split; intros [tail H]; exists tail; congruence.
      * split; [discriminate | intros [tail H]; congruence].
Qed.

Lemma contains_spec (needle : string) :
  forall hay,
    PyStr.contains needle hay = true
    <-> exists front tail, hay = (front ++ needle ++ tail)%string.
Proof.
  induction hay as [|y hay IH].
  - cbn [PyStr.contains]. rewrite orb_false_r, prefix_spec. split.
    + intros [tail H]. exists EmptyString, tail. exact H.
    + intros (front & tail & H). destruct front; [eauto | discriminate H].
  - cbn [PyStr.contains]. rewrite orb_true_iff, prefix_spec, IH. split.
    + intros [[tail H] | (front & tail & H)].
      * exists EmptyString, tail. exact H.
      * exists (String y front), tail. simpl. now rewrite H.
    + intros (front & tail & H). destruct front as [|x front].
      * left. exists tail. exact H.
      * right. exists front, tail. simpl in H. congruence.
Qed.

(** X14.  For an upstream answer below 400 the handler reads the whole
    body, to answer it as JSON, exactly when the lower-cased
    [Content-Type] (the empty string without one) contains
    [application/json] anywhere as a substring, and an answer is streamed
    only when it does not; a type such as [application/json-seq], or a
    parameter that mentions [application/json], selects the JSON branch
    too. *)
Theorem X14_streamed_unless_type_contains_json
    (P : Platform) (url : string) (resp : Response) :
  url <> EmptyString ->
  upstream_call P url = Ok resp ->
  (status_code resp < 400)%Z ->
  let contains_json :=
    exists front tail : string,
      PyStr.lower (ci_get_default (headers resp) "content-type" EmptyString)
      = (front ++ "application/json" ++ tail)%string in
  (In EvReadBody (snd (route P (Some url))) <-> contains_json)
  /\ ((exists h g, fst (route P (Some url)) = http_stream (status_code resp) h g) ->
      ~ contains_json).
Proof.
  intros Hu Hcall Hst. cbv zeta.
  pose proof (contains_spec "application/json"
                (PyStr.lower (ci_get_default (headers resp) "content-type" EmptyString)))
    as Hspec.
  fold (declares_json resp) in Hspec.
  destruct (declares_json resp) eqn:Hct.
  - assert (Hrun : buffered_run url (download_content_via_proxy P url)).
    { rewrite (json_branch P url resp Hu Hcall Hst Hct). apply json_branch_table_run. }
    unfold route. split.
    + split; [intros _; now apply Hspec|]. intros _.
      destruct Hrun as [(v & s & ->) | (s & d & line & ->)]; simpl; auto.
    + intros (h & g & H). exfalso.
      destruct (buffered_run_serves_json url _ Hrun) as (s & v & Hjson). congruence.
  - assert (Hno : ~ exists front tail : string,
              PyStr.lower (ci_get_default (headers resp) "content-type" EmptyString)
              = (front ++ "application/json" ++ tail)%string).
    { intros Hex. apply Hspec in Hex. discriminate. }
    split; [|intros _; exact Hno].
    split; [|intros Hex; contradiction].
    unfold route. rewrite (stream_branch_constructs P url resp Hu Hcall Hst Hct).
    unfold after, StreamingResponse_init.
    destruct (encode_headers _) as [raw|e]; simpl.
    + intros [H | []]. discriminate H.
    + destruct e; simpl; intros [H | []]; discriminate H.
Qed.

Lemma X14_streamed_unless_type_contains_json_witness :
  let P := Sample.platform
             (Sample.upstream 200 [("Content-Type", "Application/JSON-seq")] "[1, 2]") in
  let url := Some "https://www.instagram.com/p/Cxyz1234/"%string in
  let contains_json :=
    exists front tail : string,
      "application/json-seq"%string = (front ++ "application/json" ++ tail)%string in
  (In EvReadBody (snd (route P url)) <-> contains_json)
  /\ ((exists h g, fst (route P url) = http_stream 200 h g) -> ~ contains_json).
Proof.
  apply (X14_streamed_unless_type_contains_json
           (Sample.platform
              (Sample.upstream 200 [("Content-Type", "Application/JSON-seq")] "[1, 2]"))
           "https://www.instagram.com/p/Cxyz1234/"
           {| status_code := 200; headers := [("Content-Type", "Application/JSON-seq")];
              body := Sample.bytes "[1, 2]"; body_error := None; transfer := []; decoded := false |}).
  - apply String.eqb_neq. reflexivity.
  - reflexivity.
  - simpl. lia.
Defined.

(* ================================================================= *)
(** ** Release of the connection, and the extension of the name *)



Lemma lower_append (a b : string) :
  PyStr.lower (a ++ b) = (PyStr.lower a ++ PyStr.lower b)%string.
Proof. induction a as [|x a IH]; simpl; [reflexivity | now rewrite IH]. Qed.

Lemma filter_append (p : ascii -> bool) (a b : string) :
  PyStr.filter p (a ++ b) = (PyStr.filter p a ++ PyStr.filter p b)%string.
Proof.
  induction a as [|x a IH]; simpl; [reflexivity|].
  destruct (p x); simpl; now rewrite IH.
Qed.

(** Lower-casing does not move a character into or out of the kept set. *)
Lemma keep_char_lower (c : ascii) : keep_char (PyStr.lower_char c) = keep_char c.
Proof. destruct c as [[] [] [] [] [] [] [] []]; vm_compute; reflexivity. Qed.

Lemma lower_filter_keep (s : string) :
  PyStr.lower (PyStr.filter keep_char s) = PyStr.filter keep_char (PyStr.lower s).
Proof.
  induction s as [|x s IH]; simpl; [reflexivity|].
  rewrite keep_char_lower. destruct (keep_char x); simpl; now rewrite IH.
Qed.

(** X16.  When the URL path has a final segment and an extension is
    guessed that consists of kept characters (as [.mp4] does), the file
    name of the header ends with that extension, letter case aside:
    either the stem had it already or it was appended, and sanitising
    does not remove it. *)
Theorem X16_name_carries_the_guessed_extension
    (P : Platform) (path : string) (response_headers : dict) (ext : string) :
  guess_extension P
    (dict_get_default response_headers "Content-Type" "application/octet-stream")
  = Some ext ->
  last_segment path <> EmptyString ->
  PyStr.all_chars keep_char ext = true ->
  ends_with_ignoring_case
    (or_downloaded_file (sanitize (derive_filename P path response_headers))) ext.
Proof.
  intros Hguess Hseg Hext.
  pose proof (derive_filename_named P path response_headers) as Hnamed.
  unfold named_from in Hnamed. rewrite Hguess in Hnamed.
  set (name := derive_filename P path response_headers) in *.
  assert (Hname : ends_with_ignoring_case name ext).
  { destruct (last_segment path) as [|c seg]; [congruence|].
    destruct Hnamed as [[Hends ->] | [_ ->]]; [exact Hends|].
    eexists. apply lower_append. }
  destruct Hname as [front Hfront].
  assert (Hsan : PyStr.lower (sanitize name)
                 = (PyStr.filter keep_char front ++ PyStr.lower ext)%string).
  { rewrite sanitize_is_filter, lower_filter_keep, Hfront, filter_append, <- lower_filter_keep.
    now rewrite (filter_of_kept keep_char ext Hext). }
  unfold ends_with_ignoring_case.
  destruct (sanitize name) as [|c s] eqn:Hs.
  - destruct (PyStr.lower ext) as [|x e] eqn:He.
    + exists (PyStr.lower (or_downloaded_file EmptyString)). now rewrite append_empty_r.
    + simpl in Hsan. destruct (PyStr.filter keep_char front); discriminate Hsan.
  - exists (PyStr.filter keep_char front). exact Hsan.
Qed.

Lemma X16_name_carries_the_guessed_extension_witness :
  ends_with_ignoring_case
    (or_downloaded_file
       (sanitize
          (derive_filename (Sample.platform (Sample.upstream 200 [] EmptyString))
             "/p/my clip.MP4" [("Content-Type", "video/mp4")])))
    ".mp4".
Proof.
  apply (X16_name_carries_the_guessed_extension
           (Sample.platform (Sample.upstream 200 [] EmptyString))
           "/p/my clip.MP4" [("Content-Type", "video/mp4")] ".mp4").
  - reflexivity.
  - vm_compute. discriminate.
  - reflexivity.
Defined.
